(** * Country refresh service: a shallow embedding of [app/services.py]

    The service periodically pulls country records and exchange rates,
    joins them, derives an estimated GDP with a random multiplier and
    upserts the result through an ORM session.  This development embeds
    [CountryService] (and the two tables of [app/models.py]) and proves the
    behavioural statements of the specification about it.

    Modelling conventions.
    - A Python [float] is an IEEE 754 binary64 number, that is, a
      primitive [float]; arithmetic on it rounds as the machine does and
      [== 0] is the IEEE comparison, true of both zeros and false of NaN.
    - [datetime] values are integers (a count of clock ticks).
    - A [Dict] received from an API is a finite map or, for the country
      record whose keys are read one by one with [.get], a record of
      optional fields (absent key = [None]).
    - SQL [lower()] is ASCII lower-casing, and a column compares equal to
      a value when the two strings are the same.
    - The outside world (HTTP responses, the random generator, the clock,
      the file system used by the image writer) is an oracle [Env]; the
      code is a computation in a state-and-exception monad over [World]. *)

From Stdlib Require Import ZArith String Ascii List Lia Permutation.
From Stdlib Require Import Floats.PrimFloat Floats.SpecFloat Floats.FloatOps
  Floats.FloatAxioms.
From stdpp Require Import gmap strings list fin_maps sorting.

Local Open Scope string_scope.
Local Open Scope list_scope.
Local Open Scope Z_scope.

(* ===================================================================== *)
(** ** Strings: SQL [lower()] *)
(* ===================================================================== *)

Definition ascii_lower (c : ascii) : ascii :=
  let n := nat_of_ascii c in
  if ((65 <=? n)%nat && (n <=? 90)%nat)%bool then ascii_of_nat (n + 32) else c.

Fixpoint lower (s : string) : string :=
  match s with
  | EmptyString => EmptyString
  | String c r => String (ascii_lower c) (lower r)
  end.

(** Python truthiness of a [str]: only the empty string is falsy. *)
Definition str_truthy (s : string) : bool :=
  match s with EmptyString => false | String _ _ => true end.

(* ===================================================================== *)
(** ** Numbers *)
(* ===================================================================== *)

(** The double nearest to an integer (ties to even), as Python converts an
    [int] operand of a [float] operation.  An integer beyond the range of
    the doubles, for which Python raises [OverflowError], gives infinity
    here; no population column holds such a value. *)
Definition float_of_int (p : Z) : float :=
  SF2Prim (binary_normalize prec emax p 0 false).

(* ===================================================================== *)
(** ** The two tables of [app/models.py] *)
(* ===================================================================== *)

Module Country.

(** [class Country(SQLModel, table=True)].  [name] is declared
    [unique=True, nullable=False]; the other columns are as typed. *)
Record t := mk {
  id : Z;
  name : string;
  capital : option string;
  region : option string;
  population : Z;
  currency_code : option string;
  exchange_rate : option float;
  estimated_gdp : option float;
  flag_url : option string;
  last_refreshed_at : option Z
}.

End Country.

(** The database: the [countries] table in storage order, the sequence
    that feeds its auto-increment primary key, and the [app_metadata]
    table ([class AppMetadata]: primary key [id], default 1, and one
    nullable column [last_refreshed_at]) as a map from the primary key to
    that column. *)
Record DB := mkDB {
  countries : list Country.t;
  next_id : Z;
  app_metadata : gmap Z (option Z)
}.

Definition empty_db : DB := mkDB [] 1 ∅.

(* ===================================================================== *)
(** ** Records received from the two external APIs *)
(* ===================================================================== *)

(** One element of the restcountries array, as [upsert_country] reads it:
    every key is fetched with [.get], so every key may be absent. *)
Record CountryData := mkCountryData {
  cd_name : option string;
  cd_capital : option string;
  cd_region : option string;
  cd_population : option Z;
  cd_flag : option string;
  cd_currencies : option (list (gmap string string))
}.

(** Outcome of one [client.get] followed by [raise_for_status]. *)
Inductive http_outcome (A : Type) : Type :=
| HttpOk (body : A)
| HttpTimeout
| HttpError (detail : string).
Arguments HttpOk {A} body.
Arguments HttpTimeout {A}.
Arguments HttpError {A} detail.

(** How the backend compares the strings of an indexed column.  The
    service is configured with a database URL only, so either kind of
    backend may be behind it: one whose unique index tells ["Nigeria"] from
    ["NIGERIA"] (the default of SQLite and PostgreSQL) or one whose unique
    index does not (a case-insensitive default collation). *)
Inductive collation : Type := Binary | NoCase.

(** What the image writer left at [cache/summary.png]. *)
Record Summary := mkSummary {
  sm_total : nat;
  sm_entries : list (nat * string * option float);
  sm_timestamp : Z
}.

(** The environment of one request. *)
Record Env := mkEnv {
  (** response of the restcountries endpoint *)
  env_countries : http_outcome (list CountryData);
  (** response of the exchange-rate endpoint: the JSON object's ["rates"]
      member, if it has one *)
  env_rates : http_outcome (option (gmap string float));
  (** the integer from which the n-th call of [random.random()] builds its
      result (only its 53 low bits are used) *)
  env_random_bits : nat -> Z;
  (** n-th value returned by [datetime.now(UTC)] *)
  env_now : nat -> Z;
  (** the exception raised while drawing or saving the image, if any *)
  env_image : option string;
  (** the collation of the backend *)
  env_collation : collation
}.

(* ===================================================================== *)
(** ** The state-and-exception monad *)
(* ===================================================================== *)

(** A session works on its own view of the database; [commit] publishes
    that view.  [stdout] collects what the code prints. *)
Record World := mkWorld {
  committed : DB;
  session : DB;
  stdout : list string;
  cache_file : option Summary;
  draws : nat;
  ticks : nat
}.

Inductive Result (A : Type) : Type :=
| Ok (a : A)
| Raise (msg : string).
Arguments Ok {A} a.
Arguments Raise {A} msg.

Definition M (A : Type) : Type := World -> Result A * World.

Definition ret {A} (a : A) : M A := fun w => (Ok a, w).

Definition raise {A} (msg : string) : M A := fun w => (Raise msg, w).

Definition bind {A B} (m : M A) (k : A -> M B) : M B :=
  fun w =>
    match m w with
    | (Ok a, w') => k a w'
    | (Raise e, w') => (Raise e, w')
    end.

(** [try: m except Exception as e: h e] *)
Definition try_except {A} (m : M A) (h : string -> M A) : M A :=
  fun w =>
    match m w with
    | (Ok a, w') => (Ok a, w')
    | (Raise e, w') => h e w'
    end.

Declare Scope py_scope.
Delimit Scope py_scope with py.
Notation "'let!' x ':=' m 'in' k" := (bind m (fun x => k))
  (at level 10, x name, m at level 100, k at level 200) : py_scope.
Notation "'let!' '_' ':=' m 'in' k" := (bind m (fun _ => k))
  (at level 10, m at level 100, k at level 200) : py_scope.
Local Open Scope py_scope.

Definition get_session_db : M DB := fun w => (Ok (session w), w).

Definition put_session_db (d : DB) : M unit :=
  fun w => (Ok tt, mkWorld (committed w) d (stdout w) (cache_file w) (draws w) (ticks w)).

(** [print(...)] *)
Definition print (line : string) : M unit :=
  fun w => (Ok tt, mkWorld (committed w) (session w) (stdout w ++ [line])
                           (cache_file w) (draws w) (ticks w)).

(** [await session.commit()] *)
Definition session_commit : M unit :=
  fun w => (Ok tt, mkWorld (session w) (session w) (stdout w) (cache_file w)
                           (draws w) (ticks w)).

Section WithEnv.

Variable env : Env.

(** [datetime.now(UTC)] *)
Definition datetime_now : M Z :=
  fun w => (Ok (env_now env (ticks w)),
            mkWorld (committed w) (session w) (stdout w) (cache_file w)
                    (draws w) (S (ticks w))).

(** [random.random()]: a 53-bit integer [k] scaled by [2^-53], so one of
    the doubles [k / 2^53] with [0 <= k < 2^53]. *)
Definition random_random : M float :=
  fun w => (Ok (float_of_int (env_random_bits env (draws w) mod 2 ^ 53)
                * (1 / 9007199254740992))%float,
            mkWorld (committed w) (session w) (stdout w) (cache_file w)
                    (S (draws w)) (ticks w)).

(** [random.uniform(a, b)], which is [a + (b - a) * self.random()]; the
    service calls it with the integers 1000 and 2000. *)
Definition random_uniform (a b : Z) : M float :=
  let! r := random_random in
  ret (float_of_int a + float_of_int (b - a) * r)%float.

(* --------------------------------------------------------------------- *)
(** *** External API functions *)

Definition fetch_countries_data : M (list CountryData) :=
  match env_countries env with
  | HttpOk body => ret body
  | HttpTimeout => raise "Timeout while fetching countries data"
  | HttpError e => raise ("Could not fetch data from restcountries API - " +:+ e)
  end.

(** [data.get("rates", {})] *)
Definition fetch_exchange_rate : M (gmap string float) :=
  match env_rates env with
  | HttpOk data => ret (default ∅ data)
  | HttpTimeout => raise "Timeout while fetching exchange rate"
  | HttpError e => raise ("Could not fetch data from open.er-api API - " +:+ e)
  end.

(* --------------------------------------------------------------------- *)
(** *** Business logic functions *)

Definition extract_currency_code (currencies : list (gmap string string))
  : option string :=
  match currencies with
  | [] => None
  | first_currency :: _ => first_currency !! "code"
  end.

Definition calculate_estimated_gdp (population : Z) (exchange_rate : option float)
  : M (option float) :=
  match exchange_rate with
  | None => ret None
  | Some rate =>
      if (rate =? 0)%float then ret None
      else
        let! random_multiplier := random_uniform 1000 2000 in
        ret (Some ((float_of_int population * random_multiplier) / rate)%float)
  end.

(* --------------------------------------------------------------------- *)
(** *** The ORM session

    Statements run against the session's view of the database.  A pending
    [session.add] is sent to the database by the autoflush that precedes
    the next statement (or by the commit); here it is sent at once, which
    gives the same view to every later statement.  A refused insert is
    therefore reported by the add instead of by that flush; both come
    before the commit, so a cycle ends the same way.  The primary key of a
    new row is drawn from a sequence (the object the code returns gets it
    at the flush); the statements below use only that it is not in use.
    A statement fails for what the schema and the code decide (a refused
    insert, several rows where one is expected); the loss of the database
    during a statement is not modelled. *)

(** [select(Country).where(func.lower(Country.name) == func.lower(name))].
    A SQL comparison with NULL selects no row. *)
Definition select_country_by_lower_name (name : option string)
  : M (list Country.t) :=
  let! d := get_session_db in
  ret (match name with
       | Some n => filter (fun c => lower (Country.name c) = lower n) (countries d)
       | None => []
       end).

(** [result.scalar_one_or_none()] *)
Definition scalar_one_or_none {A} (rows : list A) : M (option A) :=
  match rows with
  | [] => ret None
  | [row] => ret (Some row)
  | _ :: _ :: _ => raise "Multiple rows were found when one or none was required"
  end.

(** When the unique index of the [name] column takes two names for the
    same.  The table declares [unique=True] on the column itself, not on
    [lower(name)], so this is the backend's comparison of the stored
    strings. *)
Definition names_collide (a b : string) : bool :=
  match env_collation env with
  | Binary => String.eqb a b
  | NoCase => String.eqb (lower a) (lower b)
  end.

(** The [unique=True] constraint of [Country.name]: no stored row has a
    name the index takes for the new one. *)
Definition unique_name_free (n : string) (rows : list Country.t) : bool :=
  forallb (fun c => negb (names_collide (Country.name c) n)) rows.

(** [session.add(Country(...))]: the row gets the next primary key; the
    insert is refused when [name] or [last_refreshed_at] is NULL (both
    columns are declared [nullable=False]) or when the name is already
    stored.  The refusal is reported here; the ORM reports it when it next
    flushes, before the next statement or the commit. *)
Definition session_add_country
    (name capital region : option string) (population : Z)
    (currency_code : option string) (exchange_rate estimated_gdp : option float)
    (flag_url : option string) (last_refreshed_at : option Z) : M Country.t :=
  let! d := get_session_db in
  match name with
  | None => raise "IntegrityError: null value in column name"
  | Some n =>
      match last_refreshed_at with
      | None => raise "IntegrityError: null value in column last_refreshed_at"
      | Some _ =>
          if unique_name_free n (countries d) then
            let new_country :=
              Country.mk (next_id d) n capital region population currency_code
                         exchange_rate estimated_gdp flag_url last_refreshed_at in
            let! _ := put_session_db
                        (mkDB (countries d ++ [new_country]) (next_id d + 1)
                              (app_metadata d)) in
            ret new_country
          else raise "IntegrityError: duplicate value in column name"
      end
  end.

(** Attribute assignments on a loaded [Country]: the row with that primary
    key takes the new column values. *)
Definition session_update_country (c : Country.t) : M unit :=
  let! d := get_session_db in
  put_session_db
    (mkDB ((fun r => if bool_decide (Country.id r = Country.id c) then c else r)
             <$> countries d)
          (next_id d) (app_metadata d)).

(** [await session.delete(country)] *)
Definition session_delete_country (c : Country.t) : M unit :=
  let! d := get_session_db in
  put_session_db
    (mkDB (filter (fun r => Country.id r <> Country.id c) (countries d))
          (next_id d) (app_metadata d)).

Definition upsert_country (country_data : CountryData)
    (exchange_rates : gmap string float) : M Country.t :=
  let currency_code :=
    extract_currency_code (default [] (cd_currencies country_data)) in
  let exchange_rate :=
    match currency_code with
    | Some code => if str_truthy code then exchange_rates !! code else None
    | None => None
    end in
  let population := default 0 (cd_population country_data) in
  let! estimated_gdp := calculate_estimated_gdp population exchange_rate in
  let name := cd_name country_data in
  let! rows := select_country_by_lower_name name in
  let! existing_country := scalar_one_or_none rows in
  match existing_country with
  | Some existing =>
      let! now := datetime_now in
      let updated :=
        Country.mk (Country.id existing) (Country.name existing)
                   (cd_capital country_data) (cd_region country_data)
                   population currency_code exchange_rate
                   (Some (default 0%float estimated_gdp))
                   (cd_flag country_data) (Some now) in
      let! _ := session_update_country updated in
      ret updated
  | None =>
      let! now := datetime_now in
      session_add_country name (cd_capital country_data)
        (cd_region country_data) population currency_code exchange_rate
        (Some (default 0%float estimated_gdp)) (cd_flag country_data) (Some now)
  end.

(** [select(AppMetadata).where(AppMetadata.id == 1)] then update or add. *)
Definition update_app_metadata (refresh_time : Z) : M unit :=
  let! d := get_session_db in
  match app_metadata d !! 1 with
  | Some _ =>
      put_session_db (mkDB (countries d) (next_id d)
                           (<[1 := Some refresh_time]> (app_metadata d)))
  | None =>
      put_session_db (mkDB (countries d) (next_id d)
                           (<[1 := Some refresh_time]> (app_metadata d)))
  end.

(* --------------------------------------------------------------------- *)
(** *** Query functions *)

(** Column order of the database: NULL sorts below every value. *)
Definition null_low_le (a b : option float) : bool :=
  match a, b with
  | None, _ => true
  | Some _, None => false
  | Some x, Some y => (x <=? y)%float
  end.

(** [ORDER BY] is a stable sort of the selected rows: rows with equal keys
    stay in storage order. *)
Fixpoint insert_sorted {A} (le : A -> A -> bool) (x : A) (l : list A) : list A :=
  match l with
  | [] => [x]
  | y :: l' => if le x y then x :: y :: l' else y :: insert_sorted le x l'
  end.

Definition order_by {A} (le : A -> A -> bool) (l : list A) : list A :=
  foldr (insert_sorted le) [] l.

Definition estimated_gdp_asc (a b : Country.t) : bool :=
  null_low_le (Country.estimated_gdp a) (Country.estimated_gdp b).
Definition estimated_gdp_desc (a b : Country.t) : bool :=
  null_low_le (Country.estimated_gdp b) (Country.estimated_gdp a).
Definition population_asc (a b : Country.t) : bool :=
  Country.population a <=? Country.population b.
Definition population_desc (a b : Country.t) : bool :=
  Country.population b <=? Country.population a.

(** [stmt.where(func.lower(column) == func.lower(value))]: a row whose
    column is NULL is not selected. *)
Definition where_lower_eq (column : Country.t -> option string) (value : string)
    (rows : list Country.t) : list Country.t :=
  filter (fun c => lower <$> column c = Some (lower value)) rows.

Definition get_countries_with_filters (region currency sort : option string)
  : M (list Country.t) :=
  let! d := get_session_db in
  let stmt := countries d in
  let stmt :=
    match region with
    | Some r => if str_truthy r then where_lower_eq Country.region r stmt else stmt
    | None => stmt
    end in
  let stmt :=
    match currency with
    | Some c =>
        if str_truthy c then where_lower_eq Country.currency_code c stmt else stmt
    | None => stmt
    end in
  let stmt :=
    if bool_decide (sort = Some "gdp_desc") then order_by estimated_gdp_desc stmt
    else if bool_decide (sort = Some "gdp_asc") then order_by estimated_gdp_asc stmt
    else if bool_decide (sort = Some "population_desc")
         then order_by population_desc stmt
    else if bool_decide (sort = Some "population_asc")
         then order_by population_asc stmt
    else stmt in
  ret stmt.

Definition get_country_by_name (name : string) : M (option Country.t) :=
  let! rows := select_country_by_lower_name (Some name) in
  scalar_one_or_none rows.

Definition delete_country_by_name (name : string) : M bool :=
  let! country := get_country_by_name name in
  match country with
  | Some c =>
      let! _ := session_delete_country c in
      let! _ := session_commit in
      ret true
  | None => ret false
  end.

Definition get_top_countries_by_gdp (limit : nat) : M (list Country.t) :=
  let! d := get_session_db in
  ret (take limit (order_by estimated_gdp_desc (countries d))).

Definition get_total_countries : M nat :=
  let! d := get_session_db in
  ret (length (countries d)).

Definition get_app_metadata : M (option (option Z)) :=
  let! d := get_session_db in
  ret (app_metadata d !! 1).

(* --------------------------------------------------------------------- *)
(** *** Image generation *)

(** The lines drawn for the top countries: rank from 1, the name, and the
    GDP, or nothing (["N/A"]) when [estimated_gdp] is falsy. *)
Definition summary_entries (top_countries : list Country.t)
  : list (nat * string * option float) :=
  imap (fun i c =>
          (S i, Country.name c,
           match Country.estimated_gdp c with
           | Some g => if (g =? 0)%float then None else Some g
           | None => None
           end))
       (take 5 top_countries).

Definition write_cache_file (img : Summary) : M unit :=
  fun w => (Ok tt, mkWorld (committed w) (session w) (stdout w) (Some img)
                           (draws w) (ticks w)).

Definition generate_summary_image (total_countries : nat)
    (top_countries : list Country.t) (last_refreshed : Z) : M unit :=
  match env_image env with
  | Some e => raise e
  | None =>
      write_cache_file
        (mkSummary total_countries (summary_entries top_countries) last_refreshed)
  end.

(* --------------------------------------------------------------------- *)
(** *** The refresh cycle *)

(** [for country_data in countries_data: await self.upsert_country(...)] *)
Fixpoint upsert_each (countries_data : list CountryData)
    (exchange_rates : gmap string float) : M unit :=
  match countries_data with
  | [] => ret tt
  | country_data :: rest =>
      let! _ := upsert_country country_data exchange_rates in
      upsert_each rest exchange_rates
  end.

Definition refresh_all_countries : M (nat * Z) :=
  let! countries_data := fetch_countries_data in
  let! exchange_rates := fetch_exchange_rate in
  let! _ := upsert_each countries_data exchange_rates in
  let! refresh_time := datetime_now in
  let! _ := update_app_metadata refresh_time in
  let! _ := session_commit in
  let! top_countries := get_top_countries_by_gdp 5 in
  let! _ :=
    try_except
      (generate_summary_image (length countries_data) top_countries refresh_time)
      (fun img_error => print ("Warning: Failed to generate image: " +:+ img_error)) in
  ret (length countries_data, refresh_time).

End WithEnv.

(* ===================================================================== *)
(** ** Vocabulary of the statements, and sample data *)
(* ===================================================================== *)

(** The key the service looks rows up by. *)
Definition lname (c : Country.t) : string := lower (Country.name c).

(** What every database reached by the service satisfies: no two rows
    share a name up to case, primary keys are distinct, and the sequence
    is ahead of every key in use. *)
Record db_ok (d : DB) : Prop := mk_db_ok {
  ok_names : NoDup (lname <$> countries d);
  ok_ids : NoDup (Country.id <$> countries d);
  ok_fresh : Forall (fun c => Country.id c < next_id d) (countries d)
}.

(** The same world with another session view and other oracle cursors. *)
Definition with_session (w : World) (d : DB) (k t : nat) : World :=
  mkWorld (committed w) d (stdout w) (cache_file w) k t.

(** The row [upsert_country] writes, given the GDP it computed and the
    clock reading it took. *)
Definition written_row (cd : CountryData) (rates : gmap string float)
    (g : option float) (now : Z) (i : Z) (nm : string) : Country.t :=
  let code := extract_currency_code (default [] (cd_currencies cd)) in
  Country.mk i nm (cd_capital cd) (cd_region cd)
    (default 0 (cd_population cd)) code
    (match code with
     | Some c => if str_truthy c then rates !! c else None
     | None => None
     end)
    (Some (default 0%float g)) (cd_flag cd) (Some now).

(** The row rewrite performed by [session_update_country]. *)
Definition replace_row (c : Country.t) (r : Country.t) : Country.t :=
  if bool_decide (Country.id r = Country.id c) then c else r.

(** An environment whose generator always builds its result from [k]. *)
Definition constant_env (k : Z) : Env :=
  mkEnv (HttpOk []) (HttpOk None) (fun _ => k) (fun n => Z.of_nat n) None Binary.

Definition fresh_world : World := mkWorld empty_db empty_db [] None 0 0.

Definition nigeria : CountryData :=
  mkCountryData (Some "Nigeria") (Some "Abuja") (Some "Africa")
    (Some 200000000) (Some "https://flagcdn.com/ng.svg")
    (Some [ {[ "code" := "NGN" ]} ]).

Definition nigeria_upper : CountryData :=
  mkCountryData (Some "NIGERIA") (Some "Lagos") None (Some 210000000) None None.

(** The line printed when the image cannot be produced. *)
Definition image_warning (img_error : string) : string :=
  "Warning: Failed to generate image: " +:+ img_error.

(** An environment where the country fetch succeeds and the exchange-rate
    fetch times out. *)
Definition rates_down_env : Env :=
  mkEnv (HttpOk [nigeria]) HttpTimeout (fun _ => 2 ^ 52)
        (fun n => Z.of_nat n) None Binary.

(** An environment where both fetches succeed and the image is written. *)
Definition good_env : Env :=
  mkEnv (HttpOk [nigeria; nigeria_upper]) (HttpOk (Some {[ "NGN" := 1600%float ]}))
        (fun _ => 2 ^ 52) (fun n => 100 + Z.of_nat n) None Binary.

(** The same environment with another behaviour of the image writer. *)
Definition with_image (env : Env) (img : option string) : Env :=
  mkEnv (env_countries env) (env_rates env) (env_random_bits env) (env_now env)
        img (env_collation env).

(** The rows the query selects, before any ordering. *)
Definition selected_rows (region currency : option string) (d : DB)
  : list Country.t :=
  let stmt := countries d in
  let stmt :=
    match region with
    | Some r => if str_truthy r then where_lower_eq Country.region r stmt else stmt
    | None => stmt
    end in
  match currency with
  | Some c =>
      if str_truthy c then where_lower_eq Country.currency_code c stmt else stmt
  | None => stmt
  end.

(** A session holding three rows with populations 5, 50 and 1. *)
Definition three_rows : World :=
  mkWorld empty_db
    (mkDB [ Country.mk 1 "Ghana" None (Some "Africa") 5 None None (Some 0%float) None (Some 0);
            Country.mk 2 "Kenya" None (Some "Africa") 50 None None (Some 0%float) None (Some 0);
            Country.mk 3 "Malta" None (Some "Europe") 1 None None (Some 0%float) None (Some 0) ]
          4 ∅)
    [] None 0 0.

(** The worlds reached from an empty database by requests served one after
    the other: a request opens a session on the committed data and runs
    service calls, each with whatever outcome it has. *)
Inductive reachable : World -> Prop :=
| reach_start out cf k t :
    reachable (mkWorld empty_db empty_db out cf k t)
| reach_new_session w :
    reachable w ->
    reachable (mkWorld (committed w) (committed w) (stdout w) (cache_file w)
                       (draws w) (ticks w))
| reach_upsert env cd rates w :
    reachable w -> reachable (snd (upsert_country env cd rates w))
| reach_refresh env w :
    reachable w -> reachable (snd (refresh_all_countries env w))
| reach_delete name w :
    reachable w -> reachable (snd (delete_country_by_name name w)).

(** A session whose table holds the one row named ["Nigeria"]. *)
Definition nigeria_stored : World :=
  mkWorld empty_db
    (mkDB [ Country.mk 1 "Nigeria" (Some "Abuja") (Some "Africa") 200000000
              (Some "NGN") (Some 1600%float) (Some 0%float) None (Some 0) ]
          2 ∅)
    [] None 0 0.

(* ===================================================================== *)
(** ** More vocabulary and sample data *)
(* ===================================================================== *)

(** [upsert_country] followed by the commit that persists its write. *)
Definition upsert_and_commit env (cd : CountryData) (rates : gmap string float)
  : M Country.t :=
  let! c := upsert_country env cd rates in
  let! _ := session_commit in
  ret c.

(** The GDP column of a row as a number (0 for NULL). *)
Definition gdp_of (c : Country.t) : float :=
  default 0%float (Country.estimated_gdp c).

(** Rows whose GDP is filled with a number that compares with itself, that
    is, with anything but NaN. *)
Definition gdp_comparable (c : Country.t) : Prop :=
  exists g, Country.estimated_gdp c = Some g /\ (g <=? g)%float = true.

(** A session holding three rows with different estimated GDPs. *)
Definition gdp_rows : World :=
  mkWorld empty_db
    (mkDB [ Country.mk 1 "Ghana" None (Some "Africa") 31000000 (Some "GHS")
              (Some 12%float) (Some 3875000000%float) None (Some 0);
            Country.mk 2 "Kenya" None (Some "Africa") 53000000 (Some "KES")
              (Some 129%float) (Some 616279069.75%float) None (Some 0);
            Country.mk 3 "Malta" None (Some "Europe") 500000 (Some "EUR")
              (Some 0.5%float) (Some 1500000000%float) None (Some 0);
            Country.mk 4 "Tuvalu" None (Some "Oceania") 11000 None
              None (Some 0%float) None (Some 0) ]
          5 ∅)
    [] None 0 0.

(** The text of the exception raised by [scalar_one_or_none]. *)
Definition multiple_rows_msg : string :=
  "Multiple rows were found when one or none was required".

(** A committed table in which two rows are named alike up to case. *)
Definition nigeria_twice : World :=
  let rows :=
    [ Country.mk 1 "Nigeria" (Some "Abuja") (Some "Africa") 200000000
        (Some "NGN") (Some 1600%float) (Some 0%float) None (Some 0);
      Country.mk 2 "NIGERIA" None None 0 None None (Some 0%float) None (Some 0) ] in
  mkWorld (mkDB rows 3 ∅) (mkDB rows 3 ∅) [] None 0 0.

(** A batch whose second record lacks its name. *)
Definition nameless_env : Env :=
  mkEnv (HttpOk [nigeria; mkCountryData None (Some "Accra") None None None None])
        (HttpOk None) (fun _ => 2 ^ 52) (fun n => Z.of_nat n) None Binary.

(** Rows whose two derived columns are filled. *)
Definition row_filled (c : Country.t) : Prop :=
  is_Some (Country.estimated_gdp c) /\ is_Some (Country.last_refreshed_at c).

(* ===================================================================== *)
(** ** Keys and selections: list lemmas *)
(* ===================================================================== *)

Section Keyed.
Context {A K : Type} `{EqDecision K} (key : A -> K).

(** With distinct keys a selection by key has at most one row. *)
Lemma filter_key_nil_or_one (k : K) (l : list A) :
  NoDup (key <$> l) ->
  filter (fun x => key x = k) l = [] \/
  exists x, filter (fun x => key x = k) l = [x] /\ x ∈ l /\ key x = k.
Proof.
  induction l as [|a l IH]; intros Hnd; [by left|].
  rewrite fmap_cons in Hnd. apply NoDup_cons in Hnd as [Ha Hnd].
  rewrite filter_cons. destruct (decide (key a = k)) as [Hk|Hk].
  - right. exists a. split; [|split; [apply list_elem_of_here|done]].
    f_equal. destruct (filter (fun x => key x = k) l) as [|b rest] eqn:Hf; [done|].
    exfalso. apply Ha.
    assert (Hb : b ∈ filter (fun x => key x = k) l) by (rewrite Hf; apply list_elem_of_here).
    apply list_elem_of_filter in Hb as [Hkb Hb].
    apply list_elem_of_fmap. exists b. split; [congruence|done].
  - destruct (IH Hnd) as [Hnil|(x & Hx & Hin & Hkx)]; [by left|].
    right. exists x. split; [done|]. split; [by apply list_elem_of_further|done].
Qed.

(** Distinct keys identify the rows. *)
Lemma key_inj_on (l : list A) (x y : A) :
  NoDup (key <$> l) -> x ∈ l -> y ∈ l -> key x = key y -> x = y.
Proof.
  induction l as [|a l IH]; intros Hnd Hx Hy Hxy; [by apply elem_of_nil in Hx|].
  rewrite fmap_cons in Hnd. apply NoDup_cons in Hnd as [Ha Hnd].
  apply elem_of_cons in Hx as [->|Hx]; apply elem_of_cons in Hy as [->|Hy].
  - done.
  - exfalso. apply Ha. apply list_elem_of_fmap. by exists y.
  - exfalso. apply Ha. apply list_elem_of_fmap. exists x. split; [congruence|done].
  - by apply IH.
Qed.

(** A selection commutes with a row rewrite that keeps the key. *)
Lemma filter_key_fmap (f : A -> A) (k : K) (l : list A) :
  (forall x, x ∈ l -> key (f x) = key x) ->
  filter (fun x => key x = k) (f <$> l) = f <$> filter (fun x => key x = k) l.
Proof.
  induction l as [|a l IH]; intros Hf; [done|].
  rewrite fmap_cons, !filter_cons.
  rewrite (Hf a) by apply list_elem_of_here.
  rewrite IH by (intros x Hx; apply Hf; by apply list_elem_of_further).
  by destruct (decide (key a = k)).
Qed.

Lemma fmap_key_fmap (f : A -> A) (l : list A) :
  (forall x, x ∈ l -> key (f x) = key x) ->
  key <$> (f <$> l) = key <$> l.
Proof.
  induction l as [|a l IH]; intros Hf; [done|].
  rewrite !fmap_cons, (Hf a) by apply list_elem_of_here.
  f_equal. apply IH. intros x Hx. apply Hf. by apply list_elem_of_further.
Qed.

Lemma filter_key_nil_not_in (k : K) (l : list A) :
  filter (fun x => key x = k) l = [] -> k ∉ key <$> l.
Proof.
  intros Hf Hin. apply list_elem_of_fmap in Hin as (x & -> & Hx).
  by apply (filter_nil_not_elem_of _ _ x Hf).
Qed.
End Keyed.

(* ===================================================================== *)
(** ** The invariant of the [countries] table *)
(* ===================================================================== *)

Lemma db_ok_empty : db_ok empty_db.
Proof. split; simpl; constructor. Qed.

Lemma unique_name_free_no_match env (n : string) (rows : list Country.t) :
  filter (fun c => lname c = lower n) rows = [] ->
  unique_name_free env n rows = true.
Proof.
  intros Hf. unfold unique_name_free. apply forallb_forall. intros x Hx.
  apply negb_true_iff. apply list_elem_of_In in Hx.
  assert (Hne : lname x <> lower n).
  { intros Heq. by apply (filter_nil_not_elem_of _ _ x Hf). }
  unfold names_collide. destruct (env_collation env); apply String.eqb_neq.
  - intros Hname. apply Hne. unfold lname. by rewrite Hname.
  - exact Hne.
Qed.

Lemma calculate_estimated_gdp_run env (p : Z) (r : option float) (w : World) :
  exists g k,
    calculate_estimated_gdp env p r w
    = (Ok g, with_session w (session w) k (ticks w)).
Proof.
  destruct w as [cm ss out cf dr tk]. unfold calculate_estimated_gdp, with_session.
  destruct r as [rate|]; simpl.
  - destruct (rate =? 0)%float.
    + by exists None, dr.
    + by eexists _, (S dr).
  - by exists None, dr.
Qed.

(** The two ways an upsert of a named record ends on a well-formed table:
    the one matching row is rewritten in place, or a row is appended. *)
Lemma upsert_country_run env (cd : CountryData) (rates : gmap string float)
    (w : World) (n : string) :
  db_ok (session w) ->
  cd_name cd = Some n ->
  exists g k,
    calculate_estimated_gdp env (default 0 (cd_population cd))
      (match extract_currency_code (default [] (cd_currencies cd)) with
       | Some c => if str_truthy c then rates !! c else None
       | None => None
       end) w
    = (Ok g, with_session w (session w) k (ticks w)) /\
    let row := written_row cd rates g (env_now env (ticks w)) in
    let d := session w in
    (exists old,
        filter (fun c => lname c = lower n) (countries d) = [old] /\
        old ∈ countries d /\
        upsert_country env cd rates w
        = (Ok (row (Country.id old) (Country.name old)),
           with_session w
             (mkDB (replace_row (row (Country.id old) (Country.name old))
                      <$> countries d)
                   (next_id d) (app_metadata d))
             k (S (ticks w))))
    \/
    (filter (fun c => lname c = lower n) (countries d) = [] /\
     upsert_country env cd rates w
     = (Ok (row (next_id d) n),
        with_session w
          (mkDB (countries d ++ [row (next_id d) n]) (next_id d + 1)
                (app_metadata d))
          k (S (ticks w)))).
Proof.
  intros Hok Hn.
  destruct (calculate_estimated_gdp_run env (default 0 (cd_population cd))
    (match extract_currency_code (default [] (cd_currencies cd)) with
     | Some c => if str_truthy c then rates !! c else None
     | None => None
     end) w) as (g & k & Hc).
  exists g, k. split; [exact Hc|]. cbv zeta.
  destruct (filter_key_nil_or_one lname (lower n) (countries (session w))
              (ok_names _ Hok)) as [Hnil|(old & Hone & Hin & Hk)].
  - right. split; [exact Hnil|].
    unfold upsert_country, bind. rewrite Hc, Hn.
    unfold select_country_by_lower_name, bind, get_session_db, ret. simpl.
    unfold lname in Hnil. rewrite Hnil. simpl.
    unfold session_add_country, bind, get_session_db, put_session_db, ret. simpl.
    rewrite (unique_name_free_no_match env n _ Hnil). reflexivity.
  - left. exists old. split; [exact Hone|]. split; [exact Hin|].
    unfold upsert_country, bind. rewrite Hc, Hn.
    unfold select_country_by_lower_name, bind, get_session_db, ret. simpl.
    unfold lname in Hone. rewrite Hone. simpl. reflexivity.
Qed.

Section Rewrite.
Variables (rows : list Country.t) (old c : Country.t).
Hypothesis Hids : NoDup (Country.id <$> rows).
Hypothesis Hold : old ∈ rows.
Hypothesis Hid : Country.id c = Country.id old.
Hypothesis Hname : Country.name c = Country.name old.

Lemma replace_row_hit : replace_row c old = c.
Proof. unfold replace_row. by rewrite bool_decide_eq_true_2. Qed.

Lemma replace_row_miss (r : Country.t) :
  r ∈ rows -> r <> old -> replace_row c r = r.
Proof.
  intros Hr Hne. unfold replace_row. rewrite bool_decide_eq_false_2; [done|].
  intros Heq. apply Hne.
  apply (key_inj_on Country.id rows); [done..|congruence].
Qed.

Lemma replace_row_cases (r : Country.t) :
  r ∈ rows ->
  (r = old /\ replace_row c r = c) \/ (r <> old /\ replace_row c r = r).
Proof.
  intros Hr. destruct (decide (Country.id r = Country.id old)) as [Heq|Hne].
  - left. assert (r = old) as -> by by apply (key_inj_on Country.id rows).
    split; [done|apply replace_row_hit].
  - right. assert (r <> old) by congruence. split; [done|by apply replace_row_miss].
Qed.

Lemma replace_row_lname (r : Country.t) :
  r ∈ rows -> lname (replace_row c r) = lname r.
Proof.
  intros Hr. destruct (replace_row_cases r Hr) as [[-> ->]|[_ ->]]; [|done].
  unfold lname. by rewrite Hname.
Qed.

Lemma replace_row_id (r : Country.t) :
  r ∈ rows -> Country.id (replace_row c r) = Country.id r.
Proof.
  intros Hr. by destruct (replace_row_cases r Hr) as [[-> ->]|[_ ->]].
Qed.

Lemma replace_row_db_ok (nid : Z) (meta : gmap Z (option Z)) :
  db_ok (mkDB rows nid meta) ->
  db_ok (mkDB (replace_row c <$> rows) nid meta).
Proof.
  intros [Hn Hi Hf]; simpl in *. split; simpl.
  - rewrite (fmap_key_fmap lname); [done|]. apply replace_row_lname.
  - rewrite (fmap_key_fmap Country.id); [done|]. apply replace_row_id.
  - apply Forall_fmap, Forall_forall. intros r Hr. simpl.
    rewrite replace_row_id by done.
    by apply (proj1 (Forall_forall _ _) Hf).
Qed.

Lemma replace_row_select (k : string) :
  filter (fun r => lname r = k) (replace_row c <$> rows)
  = replace_row c <$> filter (fun r => lname r = k) rows.
Proof. apply (filter_key_fmap lname). apply replace_row_lname. Qed.

(** Rows selected by another key are left as they were. *)
Lemma replace_row_select_other (k : string) :
  k <> lname old ->
  filter (fun r => lname r = k) (replace_row c <$> rows)
  = filter (fun r => lname r = k) rows.
Proof.
  intros Hk. rewrite replace_row_select.
  rewrite <- (list_fmap_id (filter (fun r => lname r = k) rows)) at 2.
  apply list_fmap_ext. intros i r Hr. simpl.
  assert (Hin : r ∈ filter (fun r => lname r = k) rows)
    by (apply list_elem_of_lookup; eauto).
  apply list_elem_of_filter in Hin as [Hkr Hin].
  apply replace_row_miss; [done|]. intros ->. by apply Hk.
Qed.
End Rewrite.

Lemma append_row_db_ok (d : DB) (c : Country.t) :
  db_ok d ->
  Country.id c = next_id d ->
  filter (fun r => lname r = lname c) (countries d) = [] ->
  db_ok (mkDB (countries d ++ [c]) (next_id d + 1) (app_metadata d)).
Proof.
  intros [Hn Hi Hf] Hid Hnone. split; simpl.
  - rewrite fmap_app. apply NoDup_app. split; [done|]. split; [|apply NoDup_singleton].
    intros x Hx Hx'. simpl in Hx'. apply list_elem_of_singleton in Hx'. subst x.
    by apply (filter_key_nil_not_in lname _ _ Hnone).
  - rewrite fmap_app. apply NoDup_app. split; [done|]. split; [|apply NoDup_singleton].
    intros x Hx Hx'. simpl in Hx'. apply list_elem_of_singleton in Hx'. subst x.
    apply list_elem_of_fmap in Hx as (r & Hr & Hin).
    pose proof (proj1 (Forall_forall _ _) Hf r Hin) as Hlt. simpl in Hlt. lia.
  - apply Forall_app. split.
    + eapply Forall_impl; [exact Hf|]. intros r Hr. simpl in *. lia.
    + apply Forall_singleton. lia.
Qed.

(** The effect of one upsert of a record named [n] on a well-formed table,
    in one statement: the call returns the row it wrote, that row is the
    only one named [n] up to case, every other selection by name is
    unchanged, and only the session view and the two cursors moved. *)
Lemma upsert_country_spec env (cd : CountryData) (rates : gmap string float)
    (w : World) (n : string) :
  db_ok (session w) ->
  cd_name cd = Some n ->
  exists g k i nm d',
    calculate_estimated_gdp env (default 0 (cd_population cd))
      (match extract_currency_code (default [] (cd_currencies cd)) with
       | Some c => if str_truthy c then rates !! c else None
       | None => None
       end) w
    = (Ok g, with_session w (session w) k (ticks w)) /\
    let c := written_row cd rates g (env_now env (ticks w)) i nm in
    upsert_country env cd rates w = (Ok c, with_session w d' k (S (ticks w))) /\
    db_ok d' /\
    app_metadata d' = app_metadata (session w) /\
    lower nm = lower n /\
    filter (fun r => lname r = lower n) (countries d') = [c] /\
    (forall m, m <> lower n ->
       filter (fun r => lname r = m) (countries d')
       = filter (fun r => lname r = m) (countries (session w))).
Proof.
  intros Hok Hn.
  destruct (upsert_country_run env cd rates w n Hok Hn)
    as (g & k & Hc & [(old & Hone & Hin & Hrun)|(Hnil & Hrun)]).
  - assert (Hold : lname old = lower n).
    { assert (Ho : old ∈ filter (fun c => lname c = lower n) (countries (session w)))
        by (rewrite Hone; apply list_elem_of_here).
      by apply list_elem_of_filter in Ho as [? _]. }
    exists g, k, (Country.id old), (Country.name old).
    eexists. split; [exact Hc|]. cbv zeta. split; [exact Hrun|].
    pose proof (ok_ids _ Hok) as Hids.
    split; [|split; [done|split; [exact Hold|split]]].
    + apply replace_row_db_ok with (old := old); try done. by destruct (session w).
    + simpl. rewrite (replace_row_select _ old) by done.
      rewrite Hone. simpl. by rewrite replace_row_hit.
    + intros m Hm. simpl. apply (replace_row_select_other _ old); try done.
      congruence.
  - exists g, k, (next_id (session w)), n.
    eexists. split; [exact Hc|]. cbv zeta. split; [exact Hrun|].
    split; [|split; [done|split; [done|split]]].
    + by apply append_row_db_ok.
    + simpl. rewrite filter_app, Hnil. simpl.
      by rewrite filter_cons_True, filter_nil.
    + intros m Hm. simpl. rewrite filter_app.
      rewrite (filter_cons_False _ _ []); [by rewrite filter_nil, app_nil_r|].
      unfold lname. simpl. congruence.
Qed.

(* ===================================================================== *)
(** ** Merge and derivation *)
(* ===================================================================== *)

(** C9. On a currency list whose elements all carry a ["code"] member,
    [extract_currency_code] returns the code of the first element; on the
    empty list it returns nothing; and it is a function of its argument:
    equal inputs give equal results. *)
Theorem extract_currency_code_first (currencies : list (gmap string string)) :
  Forall (fun c => is_Some (c !! "code")) currencies ->
  match currencies with
  | [] => extract_currency_code currencies = None
  | first :: _ =>
      exists code, first !! "code" = Some code /\
                   extract_currency_code currencies = Some code
  end /\
  extract_currency_code [] = None /\
  (forall other, other = currencies ->
                 extract_currency_code other = extract_currency_code currencies).
Proof.
  intros Hall. split; [|split; [reflexivity|by intros ? ->]].
  destruct currencies as [|first rest]; [reflexivity|].
  apply Forall_cons in Hall as [[code Hcode] _].
  exists code. by split.
Qed.

Lemma extract_currency_code_first_witness :
  Forall (fun c : gmap string string => is_Some (c !! "code"))
         [ {[ "code" := "NGN"; "name" := "Nigerian naira" ]};
           {[ "code" := "USD" ]} ] /\
  extract_currency_code
    [ {[ "code" := "NGN"; "name" := "Nigerian naira" ]}; {[ "code" := "USD" ]} ]
  = Some "NGN".
Proof.
  assert (H : Forall (fun c : gmap string string => is_Some (c !! "code"))
                [ {[ "code" := "NGN"; "name" := "Nigerian naira" ]};
                  {[ "code" := "USD" ]} ]).
  { repeat constructor; eexists; vm_compute; reflexivity. }
  split; [exact H|].
  destruct (extract_currency_code_first _ H) as [(code & Hc & He) _].
  rewrite He. f_equal. vm_compute in Hc. congruence.
Defined.



(** With population 0 the result is zero, and the interval of the claim,
    [[0, 0)], is empty. *)
Example estimated_gdp_zero_population :
  fst (calculate_estimated_gdp (constant_env (2 ^ 52)) 0 (Some 1%float) fresh_world)
  = Ok (Some 0%float) /\
  (0 <? float_of_int (0 * 2000) / 1)%float = false.
Proof. split; vm_compute; reflexivity. Qed.



(* ===================================================================== *)
(** ** The upsert engine *)
(* ===================================================================== *)

Lemma calculate_estimated_gdp_no_rate env (p : Z) (r : option float)
    (w w' : World) (g : option float) :
  calculate_estimated_gdp env p r w = (Ok g, w') ->
  r = None \/ (exists rate, r = Some rate /\ (rate =? 0)%float = true) ->
  g = None.
Proof.
  unfold calculate_estimated_gdp. intros Hc [->|(rate & -> & Hz)].
  - unfold ret in Hc. congruence.
  - rewrite Hz in Hc. unfold ret in Hc. congruence.
Qed.

(** C4, as stated, fails: a record without a ["name"] key is not
    persisted.  The table refuses a row without a name, so the upsert and
    the commit of such a record do not both succeed. *)
Lemma nameless_record_is_not_persisted :
  ~ (forall env (cd : CountryData) (rates : gmap string float) (w : World),
       db_ok (session w) ->
       exists c w', upsert_and_commit env cd rates w = (Ok c, w')).
Proof.
  intros H.
  destruct (H (constant_env 0)
              (mkCountryData None (Some "Accra") (Some "Africa") (Some 31000000)
                 None (Some [ {[ "code" := "GHS" ]} ]))
              {[ "GHS" := 12%float ]} fresh_world db_ok_empty) as (c & w' & Hrun).
  vm_compute in Hrun. discriminate.
Qed.

(** C4, amended.  An upsert of a record that carries a name, on a
    well-formed table, never skips the record: it returns the row it
    wrote, that row is the one row of that name (up to case) and a commit
    persists it; the row holds the record's capital, region, population
    and flag, the currency code and rate derived from the record and the
    rate table, and the time of the write; its [estimated_gdp] is never
    NULL: it is the computed value, or 0 when the derivation returned
    nothing, which is the case when the record has no currency code, when
    the rate table has no rate for its code, and when that rate is zero. *)
Theorem upsert_country_always_persists env (cd : CountryData)
    (rates : gmap string float) (w : World) (n : string) :
  db_ok (session w) ->
  cd_name cd = Some n ->
  exists c w' g wg,
    upsert_country env cd rates w = (Ok c, w') /\
    filter (fun r => lower (Country.name r) = lower n) (countries (session w'))
    = [c] /\
    (exists w'', session_commit w' = (Ok tt, w'') /\
                 c ∈ countries (committed w'')) /\
    lower (Country.name c) = lower n /\
    Country.capital c = cd_capital cd /\
    Country.region c = cd_region cd /\
    Country.population c = default 0 (cd_population cd) /\
    Country.currency_code c
    = extract_currency_code (default [] (cd_currencies cd)) /\
    Country.exchange_rate c
    = match extract_currency_code (default [] (cd_currencies cd)) with
      | Some code => if str_truthy code then rates !! code else None
      | None => None
      end /\
    Country.flag_url c = cd_flag cd /\
    Country.last_refreshed_at c = Some (env_now env (ticks w)) /\
    calculate_estimated_gdp env (default 0 (cd_population cd))
      (match extract_currency_code (default [] (cd_currencies cd)) with
       | Some code => if str_truthy code then rates !! code else None
       | None => None
       end) w = (Ok g, wg) /\
    Country.estimated_gdp c = Some (default 0%float g) /\
    (extract_currency_code (default [] (cd_currencies cd)) = None ->
     Country.estimated_gdp c = Some 0%float) /\
    (forall code,
       extract_currency_code (default [] (cd_currencies cd)) = Some code ->
       rates !! code = None ->
       Country.estimated_gdp c = Some 0%float) /\
    (forall code rate,
       extract_currency_code (default [] (cd_currencies cd)) = Some code ->
       rates !! code = Some rate -> (rate =? 0)%float = true ->
       Country.estimated_gdp c = Some 0%float).
Proof.
  intros Hok Hn.
  destruct (upsert_country_spec env cd rates w n Hok Hn)
    as (g & k & i & nm & d' & Hc & Hrun & Hok' & _ & Hnm & Hsel & _).
  cbv zeta in Hrun, Hsel.
  eexists _, _, g, _. split; [exact Hrun|]. split; [exact Hsel|].
  split.
  { eexists. split; [reflexivity|]. simpl.
    assert (Hin : written_row cd rates g (env_now env (ticks w)) i nm
                  ∈ filter (fun r => lname r = lower n) (countries d'))
      by (rewrite Hsel; apply list_elem_of_here).
    by apply list_elem_of_filter in Hin as [_ ?]. }
  split; [exact Hnm|].
  do 7 (split; [reflexivity|]). split; [exact Hc|]. split; [reflexivity|].
  cbn [written_row Country.estimated_gdp]. split; [|split].
  - intros Hcode. rewrite Hcode in Hc.
    by rewrite (calculate_estimated_gdp_no_rate _ _ _ _ _ _ Hc) by by left.
  - intros code Hcode Hrate. rewrite Hcode, Hrate in Hc.
    assert (g = None) as ->; [|done].
    destruct (str_truthy code);
      by apply (calculate_estimated_gdp_no_rate _ _ _ _ _ _ Hc); left.
  - intros code rate Hcode Hrate Hz. rewrite Hcode, Hrate in Hc.
    assert (g = None) as ->; [|done].
    destruct (str_truthy code).
    + apply (calculate_estimated_gdp_no_rate _ _ _ _ _ _ Hc). right. by exists rate.
    + by apply (calculate_estimated_gdp_no_rate _ _ _ _ _ _ Hc); left.
Qed.

Lemma upsert_country_always_persists_witness :
  exists c w',
    upsert_country (constant_env 0) nigeria ∅ fresh_world = (Ok c, w') /\
    Country.capital c = Some "Abuja" /\
    Country.estimated_gdp c = Some 0%float.
Proof.
  destruct (upsert_country_always_persists (constant_env 0) nigeria ∅
              fresh_world "Nigeria" db_ok_empty eq_refl)
    as (c & w' & g & wg & Hrun & _ & _ & _ & Hcap & _ & _ & _ & _ & _ & _ & _
        & _ & _ & Hnorate & _).
  exists c, w'. split; [exact Hrun|]. split; [exact Hcap|].
  by apply (Hnorate "NGN").
Defined.

(** C2. Two upserts in a row of records whose names agree up to case, on a
    well-formed table: both succeed, afterwards exactly one row has that
    name up to case (also once committed), and every mutable column of
    that row holds what the second record gives: its capital, region,
    population and flag, the currency code and rate derived from it, the
    GDP computed for it (0 if none), and the time of the second write. *)
Theorem upsert_twice_second_wins env (cd1 cd2 : CountryData)
    (rates1 rates2 : gmap string float) (w : World) (n1 n2 : string) :
  db_ok (session w) ->
  cd_name cd1 = Some n1 ->
  cd_name cd2 = Some n2 ->
  lower n1 = lower n2 ->
  exists c1 w1 c2 w2,
    upsert_country env cd1 rates1 w = (Ok c1, w1) /\
    upsert_country env cd2 rates2 w1 = (Ok c2, w2) /\
    filter (fun r => lower (Country.name r) = lower n1) (countries (session w2))
    = [c2] /\
    (exists w3, session_commit w2 = (Ok tt, w3) /\
       filter (fun r => lower (Country.name r) = lower n1)
              (countries (committed w3)) = [c2]) /\
    Country.capital c2 = cd_capital cd2 /\
    Country.region c2 = cd_region cd2 /\
    Country.population c2 = default 0 (cd_population cd2) /\
    Country.currency_code c2
    = extract_currency_code (default [] (cd_currencies cd2)) /\
    Country.exchange_rate c2
    = match extract_currency_code (default [] (cd_currencies cd2)) with
      | Some code => if str_truthy code then rates2 !! code else None
      | None => None
      end /\
    (exists g w',
       calculate_estimated_gdp env (Country.population c2)
         (Country.exchange_rate c2) w1 = (Ok g, w') /\
       Country.estimated_gdp c2 = Some (default 0%float g)) /\
    Country.flag_url c2 = cd_flag cd2 /\
    Country.last_refreshed_at c2 = Some (env_now env (ticks w1)).
Proof.
  intros Hok Hn1 Hn2 Hcase.
  destruct (upsert_country_spec env cd1 rates1 w n1 Hok Hn1)
    as (g1 & k1 & i1 & nm1 & d1 & _ & Hrun1 & Hok1 & _).
  cbv zeta in Hrun1.
  set (w1 := with_session w d1 k1 (S (ticks w))) in *.
  destruct (upsert_country_spec env cd2 rates2 w1 n2 Hok1 Hn2)
    as (g2 & k2 & i2 & nm2 & d2 & Hc2 & Hrun2 & Hok2 & _ & _ & Hsel & _).
  cbv zeta in Hrun2, Hsel. rewrite <- Hcase in Hsel.
  eexists _, w1, _, _. split; [exact Hrun1|]. split; [exact Hrun2|].
  split; [exact Hsel|]. split; [by eexists|].
  repeat (split; [reflexivity|]).
  split; [|by split]. by eexists _, _.
Qed.

Lemma upsert_twice_second_wins_witness :
  exists c1 w1 c2 w2,
    upsert_country (constant_env 1500) nigeria {[ "NGN" := 1600%float ]} fresh_world
    = (Ok c1, w1) /\
    upsert_country (constant_env 1500) nigeria_upper {[ "NGN" := 1600%float ]} w1
    = (Ok c2, w2) /\
    filter (fun r => lower (Country.name r) = lower "Nigeria")
           (countries (session w2)) = [c2] /\
    Country.capital c2 = Some "Lagos".
Proof.
  destruct (upsert_twice_second_wins (constant_env 1500) nigeria nigeria_upper
              {[ "NGN" := 1600%float ]} {[ "NGN" := 1600%float ]} fresh_world
              "Nigeria" "NIGERIA" db_ok_empty eq_refl eq_refl eq_refl)
    as (c1 & w1 & c2 & w2 & H1 & H2 & Hsel & _ & Hcap & _).
  by exists c1, w1, c2, w2.
Defined.

Lemma filter_all {A} (P : A -> Prop) `{forall x, Decision (P x)} (l : list A) :
  Forall P l -> filter P l = l.
Proof.
  induction 1 as [|x l Hx _ IH]; [done|].
  by rewrite filter_cons_True, IH.
Qed.

(** Deleting by primary key from a table with distinct keys takes out the
    one row and leaves the others in place. *)
Lemma delete_by_id_split (l1 l2 : list Country.t) (c : Country.t) :
  NoDup (Country.id <$> l1 ++ c :: l2) ->
  filter (fun r => Country.id r <> Country.id c) (l1 ++ c :: l2) = l1 ++ l2.
Proof.
  intros Hnd. rewrite fmap_app, fmap_cons in Hnd.
  apply NoDup_app in Hnd as (_ & Hdisj & Hnd2).
  apply NoDup_cons in Hnd2 as [Hc2 _].
  rewrite filter_app, filter_cons_False by (intros Hne; by apply Hne).
  rewrite !filter_all; [done| |].
  - apply Forall_forall. intros r Hr Heq. apply Hc2.
    apply list_elem_of_fmap. by exists r.
  - apply Forall_forall. intros r Hr Heq.
    apply (Hdisj (Country.id r)); [apply list_elem_of_fmap; by exists r|].
    rewrite Heq. apply list_elem_of_here.
Qed.

Lemma db_ok_remove (l1 l2 : list Country.t) (c : Country.t) (nid : Z)
    (meta : gmap Z (option Z)) :
  db_ok (mkDB (l1 ++ c :: l2) nid meta) -> db_ok (mkDB (l1 ++ l2) nid meta).
Proof.
  intros [Hn Hi Hf]; cbn [countries next_id app_metadata] in *.
  rewrite fmap_app, fmap_cons in Hn. rewrite fmap_app, fmap_cons in Hi.
  apply NoDup_app in Hn as (Hn1 & Hnd & Hn2). apply NoDup_cons in Hn2 as [_ Hn2].
  apply NoDup_app in Hi as (Hi1 & Hid & Hi2). apply NoDup_cons in Hi2 as [_ Hi2].
  apply Forall_app in Hf as [Hf1 Hf2]. apply Forall_cons in Hf2 as [_ Hf2].
  split; simpl.
  - rewrite fmap_app. apply NoDup_app. split; [done|]. split; [|done].
    intros x Hx Hx'. apply (Hnd x Hx). by apply list_elem_of_further.
  - rewrite fmap_app. apply NoDup_app. split; [done|]. split; [|done].
    intros x Hx Hx'. apply (Hid x Hx). by apply list_elem_of_further.
  - apply Forall_app. by split.
Qed.

(** The two ways a delete ends on a well-formed table. *)
Lemma delete_country_by_name_run (name : string) (w : World) :
  db_ok (session w) ->
  ((forall r, r ∈ countries (session w) ->
              lower (Country.name r) <> lower name) /\
   delete_country_by_name name w = (Ok false, w))
  \/
  (exists c l1 l2 w',
     countries (session w) = l1 ++ c :: l2 /\
     lower (Country.name c) = lower name /\
     delete_country_by_name name w = (Ok true, w') /\
     countries (session w') = l1 ++ l2 /\
     (forall r, r ∈ countries (session w') ->
                lower (Country.name r) <> lower name) /\
     app_metadata (session w') = app_metadata (session w) /\
     committed w' = session w' /\
     db_ok (session w')).
Proof.
  intros Hok.
  destruct (filter_key_nil_or_one lname (lower name) (countries (session w))
              (ok_names _ Hok)) as [Hnil|(c & Hone & Hin & Hk)].
  - left. split.
    + intros r Hr Heq. by apply (filter_nil_not_elem_of _ _ r Hnil).
    + unfold delete_country_by_name, get_country_by_name, bind,
        select_country_by_lower_name, get_session_db, ret. simpl.
      unfold lname in Hnil. by rewrite Hnil.
  - right. apply list_elem_of_split in Hin as (l1 & l2 & Hrows).
    exists c, l1, l2. eexists. split; [exact Hrows|]. split; [exact Hk|].
    pose proof (ok_ids _ Hok) as Hids. rewrite Hrows in Hids.
    pose proof (ok_names _ Hok) as Hnames. rewrite Hrows in Hnames.
    assert (Hok' : db_ok (mkDB (l1 ++ l2) (next_id (session w))
                               (app_metadata (session w)))).
    { apply (db_ok_remove l1 l2 c). rewrite <- Hrows. by destruct (session w). }
    split.
    { unfold delete_country_by_name, get_country_by_name, bind,
        select_country_by_lower_name, get_session_db, ret. simpl.
      unfold lname in Hone. rewrite Hone. simpl.
      unfold session_delete_country, bind, get_session_db, put_session_db,
        session_commit, ret. simpl.
      rewrite Hrows, (delete_by_id_split l1 l2 c Hids). reflexivity. }
    simpl. split; [done|]. split; [|done].
    intros r Hr Heq.
    rewrite fmap_app, fmap_cons in Hnames.
    apply NoDup_app in Hnames as (_ & Hdisj & Hn2).
    apply NoDup_cons in Hn2 as [Hc2 _].
    apply elem_of_app in Hr as [Hr|Hr].
    + apply (Hdisj (lname r)); [apply list_elem_of_fmap; by exists r|].
      unfold lname at 1. rewrite Heq, <- Hk. apply list_elem_of_here.
    + apply Hc2. apply list_elem_of_fmap. exists r. split; [|done].
      unfold lname in *. by rewrite Hk, Heq.
Qed.

(** C7. [delete_country_by_name] on a well-formed table looks the name up
    without regard to case.  Either no row has that name: it returns
    [False] and the world is exactly as before; or one row has it: it
    returns [True], that row and no other is removed (the others keep
    their order), and the result is committed.  In particular deleting
    ["Wakanda"] from an empty table returns [False] and alters nothing. *)
Theorem delete_country_by_name_spec (name : string) (w : World) :
  db_ok (session w) ->
  ((forall r, r ∈ countries (session w) ->
              lower (Country.name r) <> lower name) /\
   delete_country_by_name name w = (Ok false, w))
  \/
  (exists c l1 l2 w',
     countries (session w) = l1 ++ c :: l2 /\
     lower (Country.name c) = lower name /\
     delete_country_by_name name w = (Ok true, w') /\
     countries (session w') = l1 ++ l2 /\
     (forall r, r ∈ countries (session w') ->
                lower (Country.name r) <> lower name) /\
     app_metadata (session w') = app_metadata (session w) /\
     committed w' = session w' /\
     db_ok (session w')).
Proof. apply delete_country_by_name_run. Qed.

Lemma delete_country_by_name_spec_witness :
  db_ok (session fresh_world) /\
  delete_country_by_name "Wakanda" fresh_world = (Ok false, fresh_world).
Proof.
  split; [exact db_ok_empty|].
  destruct (delete_country_by_name_spec "Wakanda" fresh_world db_ok_empty)
    as [[_ Hrun]|(c & l1 & l2 & w' & Hrows & _)].
  - exact Hrun.
  - destruct l1; discriminate Hrows.
Defined.

(* ===================================================================== *)
(** ** The refresh cycle *)
(* ===================================================================== *)

(** The batch of upserts over records that all carry a name, on a
    well-formed table: every upsert succeeds, one clock reading is taken
    per record, the metadata table is not touched, nothing already stored
    disappears and every record of the batch has its row. *)
Lemma upsert_each_spec env (countries_data : list CountryData)
    (rates : gmap string float) (w : World) :
  db_ok (session w) ->
  Forall (fun cd => is_Some (cd_name cd)) countries_data ->
  exists d' k,
    upsert_each env countries_data rates w
    = (Ok tt, with_session w d' k (ticks w + length countries_data)%nat) /\
    db_ok d' /\
    app_metadata d' = app_metadata (session w) /\
    (forall m, filter (fun r => lname r = m) (countries (session w)) <> [] ->
               filter (fun r => lname r = m) (countries d') <> []) /\
    (forall cd n, cd ∈ countries_data -> cd_name cd = Some n ->
                  filter (fun r => lname r = lower n) (countries d') <> []).
Proof.
  revert w. induction countries_data as [|cd rest IH]; intros w Hok Hall.
  - exists (session w), (draws w). destruct w as [cm ss out cf dr tk]. simpl.
    rewrite Nat.add_0_r. split; [done|]. split; [done|]. split; [done|].
    split; [done|]. intros cd n Hin. by apply elem_of_nil in Hin.
  - apply Forall_cons in Hall as [[n Hn] Hall].
    destruct (upsert_country_spec env cd rates w n Hok Hn)
      as (g & k1 & i & nm & d1 & _ & Hrun & Hok1 & Hmeta1 & _ & Hsel & Hoth).
    cbv zeta in Hrun, Hsel.
    destruct (IH (with_session w d1 k1 (S (ticks w))) Hok1 Hall)
      as (d' & k & Hrest & Hok' & Hmeta' & Hkeep & Hnew).
    exists d', k. split.
    { simpl. unfold bind. rewrite Hrun, Hrest. unfold with_session. simpl.
      do 2 f_equal. lia. }
    split; [done|]. split; [by rewrite Hmeta'|]. simpl in Hkeep. split.
    + intros m Hm. apply Hkeep. destruct (decide (m = lower n)) as [->|Hne].
      * by rewrite Hsel.
      * by rewrite Hoth.
    + intros cd' n' Hin Hn'. apply elem_of_cons in Hin as [->|Hin].
      * apply Hkeep. assert (n' = n) as -> by congruence. by rewrite Hsel.
      * by apply (Hnew cd').
Qed.

(** A whole cycle whose two fetches succeed, over records that all carry a
    name, from a well-formed session: the final world, whatever the image
    writer does. *)
Lemma refresh_all_countries_run env (w : World) (countries_data : list CountryData)
    (rates : option (gmap string float)) :
  env_countries env = HttpOk countries_data ->
  env_rates env = HttpOk rates ->
  Forall (fun cd => is_Some (cd_name cd)) countries_data ->
  db_ok (session w) ->
  exists d' k,
    let total := length countries_data in
    let t := env_now env (ticks w + total)%nat in
    let final :=
      mkDB (countries d') (next_id d')
           (<[1 := Some t]> (app_metadata (session w))) in
    db_ok d' /\
    (forall cd n, cd ∈ countries_data -> cd_name cd = Some n ->
                  filter (fun r => lname r = lower n) (countries d') <> []) /\
    refresh_all_countries env w
    = (Ok (total, t),
       match env_image env with
       | Some e =>
           mkWorld final final (stdout w ++ [image_warning e]) (cache_file w)
                   k (S (ticks w + total))
       | None =>
           mkWorld final final (stdout w)
                   (Some (mkSummary total
                            (summary_entries
                               (take 5 (order_by estimated_gdp_desc (countries d'))))
                            t))
                   k (S (ticks w + total))
       end).
Proof.
  intros Hc Hr Hall Hok.
  destruct (upsert_each_spec env countries_data (default ∅ rates) w Hok Hall)
    as (d' & k & Hrun & Hok' & Hmeta & _ & Hnew).
  exists d', k. cbv zeta. split; [done|]. split; [done|].
  unfold refresh_all_countries, bind, fetch_countries_data, fetch_exchange_rate.
  rewrite Hc, Hr. unfold ret at 1 2. rewrite Hrun.
  unfold with_session, datetime_now, update_app_metadata, bind, get_session_db,
    put_session_db, session_commit, get_top_countries_by_gdp, try_except,
    generate_summary_image, write_cache_file, print, raise, ret.
  cbn [session committed stdout cache_file draws ticks countries next_id
       app_metadata].
  rewrite Hmeta.
  destruct (app_metadata (session w) !! 1); cbn [session committed stdout
    cache_file draws ticks countries next_id app_metadata];
    destruct (env_image env); reflexivity.
Qed.

(** C1. If either fetch raises, [refresh_all_countries] raises too and the
    world after the call is the world before it: no upsert, no metadata
    write, no commit; the persisted countries and metadata are untouched. *)
Theorem refresh_aborts_on_fetch_failure env (w : World) :
  (exists e w1, fetch_countries_data env w = (Raise e, w1)) \/
  (exists e w1, fetch_exchange_rate env w = (Raise e, w1)) ->
  exists e,
    refresh_all_countries env w = (Raise e, w) /\
    countries (committed (snd (refresh_all_countries env w)))
    = countries (committed w) /\
    app_metadata (committed (snd (refresh_all_countries env w)))
    = app_metadata (committed w).
Proof.
  unfold refresh_all_countries, bind, fetch_countries_data, fetch_exchange_rate.
  intros [(e & w1 & Hf)|(e & w1 & Hf)].
  - destruct (env_countries env) as [body| |detail]; [discriminate Hf|..];
      by eexists.
  - destruct (env_countries env) as [body| |detail]; [|by eexists..].
    unfold ret at 1.
    destruct (env_rates env) as [data| |detail]; [discriminate Hf|..]; by eexists.
Qed.

Lemma refresh_aborts_on_fetch_failure_witness :
  exists e, refresh_all_countries rates_down_env fresh_world
            = (Raise e, fresh_world).
Proof.
  destruct (refresh_aborts_on_fetch_failure rates_down_env fresh_world)
    as (e & Hrun & _).
  - right. by eexists _, _.
  - by exists e.
Defined.

(** C6. A cycle whose fetches succeed with record list [L] (each record
    carrying a name), from a well-formed session, returns the length of
    [L] and the completion time, which is the clock reading taken after
    the upserts; afterwards the committed metadata row with identifier 1
    exists and holds that same time, whether or not the row existed
    before, and no other metadata row is touched. *)
Theorem refresh_returns_count_and_timestamp env (w : World)
    (L : list CountryData) (rates : option (gmap string float)) :
  env_countries env = HttpOk L ->
  env_rates env = HttpOk rates ->
  Forall (fun cd => is_Some (cd_name cd)) L ->
  db_ok (session w) ->
  exists completedAt w',
    refresh_all_countries env w = (Ok (length L, completedAt), w') /\
    completedAt = env_now env (ticks w + length L)%nat /\
    app_metadata (committed w') !! 1 = Some (Some completedAt) /\
    (forall i, i <> 1 ->
       app_metadata (committed w') !! i = app_metadata (session w) !! i) /\
    dom (app_metadata (committed w'))
    = {[ 1 ]} ∪ dom (app_metadata (session w)) /\
    session w' = committed w'.
Proof.
  intros Hc Hr Hall Hok.
  destruct (refresh_all_countries_run env w L rates Hc Hr Hall Hok)
    as (d' & k & _ & _ & Hrun).
  cbv zeta in Hrun. eexists _, _. split; [exact Hrun|]. split; [reflexivity|].
  destruct (env_image env); cbn [committed session app_metadata];
    (split; [apply lookup_insert_eq|]);
    (split; [intros i Hi; by apply lookup_insert_ne|]);
    (split; [apply dom_insert_L|reflexivity]).
Qed.

Lemma good_env_named :
  Forall (fun cd => is_Some (cd_name cd)) [nigeria; nigeria_upper].
Proof. repeat constructor; by eexists. Qed.

Lemma refresh_returns_count_and_timestamp_witness :
  exists w',
    refresh_all_countries good_env fresh_world = (Ok (2%nat, 102), w') /\
    app_metadata (committed w') !! 1 = Some (Some 102).
Proof.
  destruct (refresh_returns_count_and_timestamp good_env fresh_world
              [nigeria; nigeria_upper] (Some {[ "NGN" := 1600%float ]})
              eq_refl eq_refl good_env_named db_ok_empty)
    as (t & w' & Hrun & -> & Hmeta & _).
  exists w'. by split.
Defined.

(** The image writer decides nothing about the outcome of a cycle: with a
    failing writer the call returns what it returns with a working one, and
    leaves the same session and the same committed data. *)
Lemma refresh_result_ignores_image env (e : string) (w : World) :
  fst (refresh_all_countries (with_image env (Some e)) w)
  = fst (refresh_all_countries (with_image env None) w) /\
  committed (snd (refresh_all_countries (with_image env (Some e)) w))
  = committed (snd (refresh_all_countries (with_image env None) w)) /\
  session (snd (refresh_all_countries (with_image env (Some e)) w))
  = session (snd (refresh_all_countries (with_image env None) w)).
Proof.
  unfold refresh_all_countries, bind, fetch_countries_data, fetch_exchange_rate,
    ret, raise.
  cbn [with_image env_countries env_rates].
  destruct (env_countries env) as [body| |detail]; [|done..].
  destruct (env_rates env) as [data| |detail]; [|done..].
  cbv beta iota.
  change (upsert_each (with_image env (Some e))) with (upsert_each env).
  change (upsert_each (with_image env None)) with (upsert_each env).
  destruct (upsert_each env body (default ∅ data) w) as [[[]|msg] w1]; [|done].
  unfold datetime_now, update_app_metadata, bind, get_session_db, put_session_db,
    session_commit, get_top_countries_by_gdp, try_except, generate_summary_image,
    write_cache_file, print, raise, ret.
  cbn [with_image env_image env_now session committed stdout cache_file draws
       ticks countries next_id app_metadata].
  by destruct (app_metadata (session w1) !! 1).
Qed.

(** C8. In a cycle whose fetches, upserts and commit succeed, an exception
    raised by the image writer is caught: the warning line is printed, the
    cached image is left as it was, and the cycle still returns its count
    and timestamp, the very result it returns when the writer works. *)
Theorem image_failure_is_swallowed env (w : World) (L : list CountryData)
    (rates : option (gmap string float)) (img_error : string) :
  env_countries env = HttpOk L ->
  env_rates env = HttpOk rates ->
  Forall (fun cd => is_Some (cd_name cd)) L ->
  db_ok (session w) ->
  exists completedAt w',
    refresh_all_countries (with_image env (Some img_error)) w
    = (Ok (length L, completedAt), w') /\
    stdout w' = stdout w ++ [image_warning img_error] /\
    cache_file w' = cache_file w /\
    fst (refresh_all_countries (with_image env None) w)
    = Ok (length L, completedAt) /\
    committed w' = committed (snd (refresh_all_countries (with_image env None) w)).
Proof.
  intros Hc Hr Hall Hok.
  destruct (refresh_all_countries_run (with_image env (Some img_error)) w L rates
              Hc Hr Hall Hok) as (d' & k & _ & _ & Hrun).
  cbv zeta in Hrun. cbn [with_image env_image env_now] in Hrun.
  destruct (refresh_result_ignores_image env img_error w) as (Hres & Hcm & _).
  rewrite Hrun in Hres, Hcm. cbn [fst snd] in Hres, Hcm.
  eexists _, _. split; [exact Hrun|]. split; [reflexivity|].
  split; [reflexivity|]. split; [by rewrite <- Hres|exact Hcm].
Qed.

Lemma image_failure_is_swallowed_witness :
  exists w',
    refresh_all_countries (with_image good_env (Some "disk full")) fresh_world
    = (Ok (2%nat, 102), w') /\
    stdout w' = ["Warning: Failed to generate image: disk full"] /\
    cache_file w' = None.
Proof.
  destruct (image_failure_is_swallowed good_env fresh_world
              [nigeria; nigeria_upper] (Some {[ "NGN" := 1600%float ]}) "disk full"
              eq_refl eq_refl good_env_named db_ok_empty)
    as (t & w' & Hrun & Hout & Hcache & _).
  exists w'. split; [|by split].
  rewrite Hrun. do 2 f_equal.
  vm_compute in Hrun. by injection Hrun as <- _.
Defined.

(* ===================================================================== *)
(** ** The listing query *)
(* ===================================================================== *)

Lemma insert_sorted_perm {A} (le : A -> A -> bool) (x : A) (l : list A) :
  insert_sorted le x l ≡ₚ x :: l.
Proof.
  induction l as [|y l IH]; simpl; [done|].
  destruct (le x y); [done|]. rewrite IH. apply Permutation_swap.
Qed.

Lemma order_by_perm {A} (le : A -> A -> bool) (l : list A) :
  order_by le l ≡ₚ l.
Proof.
  induction l as [|x l IH]; simpl; [done|].
  unfold order_by in *. simpl. rewrite insert_sorted_perm. by rewrite IH.
Qed.

(** Whatever the sort argument, the query succeeds, leaves the world as it
    is and returns the selected rows in some order. *)
Lemma get_countries_with_filters_perm (region currency sort : option string)
    (w : World) :
  exists rows,
    get_countries_with_filters region currency sort w = (Ok rows, w) /\
    rows ≡ₚ selected_rows region currency (session w).
Proof.
  unfold get_countries_with_filters, bind, get_session_db, ret.
  fold (selected_rows region currency (session w)).
  repeat case_bool_decide; eexists; (split; [reflexivity|]);
    try apply order_by_perm; done.
Qed.

(** C10. A sort argument other than the four recognised values orders
    nothing: the query answers exactly as with no sort argument, that is,
    it succeeds and returns the rows selected by the filters in storage
    order.  And for any two sort arguments the two answers hold the same
    rows, in possibly different orders. *)
Theorem unrecognised_sort_is_no_sort (region currency sort : option string)
    (w : World) :
  sort <> Some "gdp_asc" ->
  sort <> Some "gdp_desc" ->
  sort <> Some "population_asc" ->
  sort <> Some "population_desc" ->
  get_countries_with_filters region currency sort w
  = get_countries_with_filters region currency None w /\
  get_countries_with_filters region currency sort w
  = (Ok (selected_rows region currency (session w)), w) /\
  (forall sort1 sort2,
     exists rows1 rows2,
       get_countries_with_filters region currency sort1 w = (Ok rows1, w) /\
       get_countries_with_filters region currency sort2 w = (Ok rows2, w) /\
       rows1 ≡ₚ rows2).
Proof.
  intros H1 H2 H3 H4. split; [|split].
  - unfold get_countries_with_filters, bind, get_session_db, ret.
    by rewrite !bool_decide_eq_false_2.
  - unfold get_countries_with_filters, bind, get_session_db, ret.
    by rewrite !bool_decide_eq_false_2.
  - intros sort1 sort2.
    destruct (get_countries_with_filters_perm region currency sort1 w)
      as (rows1 & Hrun1 & Hp1).
    destruct (get_countries_with_filters_perm region currency sort2 w)
      as (rows2 & Hrun2 & Hp2).
    exists rows1, rows2. split; [done|]. split; [done|]. by rewrite Hp1, Hp2.
Qed.

Lemma unrecognised_sort_is_no_sort_witness :
  get_countries_with_filters (Some "AFRICA") None (Some "name_asc") three_rows
  = get_countries_with_filters (Some "AFRICA") None None three_rows /\
  fst (get_countries_with_filters (Some "AFRICA") None (Some "name_asc") three_rows)
  = Ok (take 2 (countries (session three_rows))).
Proof.
  destruct (unrecognised_sort_is_no_sort (Some "AFRICA") None (Some "name_asc")
              three_rows) as (Hsame & Hrows & _); try discriminate.
  split; [exact Hsame|]. by rewrite Hrows.
Defined.

(** The ordering of the specification's example: populations 5, 50, 1
    listed with [population_desc] come out as 50, 5, 1. *)
Example population_desc_example :
  match fst (get_countries_with_filters None None (Some "population_desc")
               three_rows) with
  | Ok rows => Country.population <$> rows
  | Raise _ => []
  end = [50; 5; 1].
Proof. reflexivity. Qed.

(* ===================================================================== *)
(** ** What the service can reach *)
(* ===================================================================== *)

(** An upsert, whatever its outcome, keeps the session's table well formed
    and commits nothing. *)
Lemma upsert_country_preserves env (cd : CountryData) (rates : gmap string float)
    (w : World) :
  db_ok (session w) ->
  db_ok (session (snd (upsert_country env cd rates w))) /\
  committed (snd (upsert_country env cd rates w)) = committed w.
Proof.
  intros Hok. destruct (cd_name cd) as [n|] eqn:Hn.
  - destruct (upsert_country_spec env cd rates w n Hok Hn)
      as (g & k & i & nm & d' & _ & Hrun & Hok' & _).
    cbv zeta in Hrun. by rewrite Hrun.
  - destruct (calculate_estimated_gdp_run env (default 0 (cd_population cd))
      (match extract_currency_code (default [] (cd_currencies cd)) with
       | Some c => if str_truthy c then rates !! c else None
       | None => None
       end) w) as (g & k & Hc).
    unfold upsert_country, bind. rewrite Hc, Hn. by destruct w.
Qed.

Lemma upsert_each_preserves env (countries_data : list CountryData)
    (rates : gmap string float) (w : World) :
  db_ok (session w) ->
  db_ok (session (snd (upsert_each env countries_data rates w))) /\
  committed (snd (upsert_each env countries_data rates w)) = committed w.
Proof.
  revert w. induction countries_data as [|cd rest IH]; intros w Hok; [done|].
  simpl. unfold bind.
  destruct (upsert_country_preserves env cd rates w Hok) as [Hok1 Hcm1].
  destruct (upsert_country env cd rates w) as [[c|e] w1]; simpl in *.
  - destruct (IH w1 Hok1) as [Hok2 Hcm2]. split; [done|congruence].
  - done.
Qed.

(** A refresh cycle, whatever its outcome, leaves well-formed tables in the
    session and in the committed data. *)
Lemma refresh_all_countries_preserves env (w : World) :
  db_ok (session w) -> db_ok (committed w) ->
  db_ok (session (snd (refresh_all_countries env w))) /\
  db_ok (committed (snd (refresh_all_countries env w))).
Proof.
  intros Hok Hcm.
  unfold refresh_all_countries, bind, fetch_countries_data, fetch_exchange_rate,
    ret, raise.
  destruct (env_countries env) as [body| |detail]; [|done..].
  destruct (env_rates env) as [data| |detail]; [|done..].
  cbv beta iota.
  destruct (upsert_each_preserves env body (default ∅ data) w Hok) as [Hok1 Hcm1].
  destruct (upsert_each env body (default ∅ data) w) as [[[]|msg] w1];
    cbn [fst snd] in *; [|by rewrite Hcm1].
  assert (Hfinal : forall t,
    db_ok (mkDB (countries (session w1)) (next_id (session w1))
                (<[1 := Some t]> (app_metadata (session w1))))).
  { intros t. destruct Hok1 as [? ? ?]. by split. }
  unfold datetime_now, update_app_metadata, get_top_countries_by_gdp, try_except,
    generate_summary_image, write_cache_file, print, session_commit, bind,
    get_session_db, put_session_db, raise, ret.
  cbn [session committed stdout cache_file draws ticks countries next_id
       app_metadata].
  destruct (app_metadata (session w1) !! 1);
    cbn [session committed stdout cache_file draws ticks countries next_id
         app_metadata];
    destruct (env_image env); cbn [fst snd session committed]; by split.
Qed.

Lemma delete_country_by_name_preserves (name : string) (w : World) :
  db_ok (session w) -> db_ok (committed w) ->
  db_ok (session (snd (delete_country_by_name name w))) /\
  db_ok (committed (snd (delete_country_by_name name w))).
Proof.
  intros Hok Hcm.
  destruct (delete_country_by_name_run name w Hok)
    as [[_ Hrun]|(c & l1 & l2 & w' & _ & _ & Hrun & _ & _ & _ & Hsame & Hok')].
  - by rewrite Hrun.
  - rewrite Hrun. simpl. by rewrite Hsame.
Qed.

Lemma reachable_db_ok (w : World) :
  reachable w -> db_ok (session w) /\ db_ok (committed w).
Proof.
  induction 1 as [out cf k t|w _ [Hs Hc]|env cd rates w _ [Hs Hc]
                 |env w _ [Hs Hc]|name w _ [Hs Hc]].
  - split; apply db_ok_empty.
  - by split.
  - destruct (upsert_country_preserves env cd rates w Hs) as [Hs' Hc'].
    split; [done|by rewrite Hc'].
  - by apply refresh_all_countries_preserves.
  - by apply delete_country_by_name_preserves.
Qed.

Lemma nigeria_stored_ok : db_ok (session nigeria_stored).
Proof.
  split; simpl.
  - apply NoDup_singleton.
  - apply NoDup_singleton.
  - repeat constructor.
Qed.

(** When the storage layer accepts an insert of a complete row: exactly
    when no stored name collides with the new one under the collation of
    the backend. *)
Lemma session_add_country_accepts env (w : World) (n : string)
    (capital region : option string) (population : Z)
    (currency_code : option string) (exchange_rate estimated_gdp : option float)
    (flag_url : option string) (t : Z) :
  (exists c w',
     session_add_country env (Some n) capital region population currency_code
       exchange_rate estimated_gdp flag_url (Some t) w = (Ok c, w')) <->
  (forall r, r ∈ countries (session w) ->
             names_collide env (Country.name r) n = false).
Proof.
  unfold session_add_country, bind, get_session_db, put_session_db, ret, raise.
  destruct (unique_name_free env n (countries (session w))) eqn:Hu.
  - split; [|by eexists _, _]. intros _ r Hr.
    unfold unique_name_free in Hu. rewrite forallb_forall in Hu.
    apply negb_true_iff, Hu. by apply list_elem_of_In.
  - split; [by intros (c & w' & [=])|]. intros Hall. exfalso.
    assert (Ht : unique_name_free env n (countries (session w)) = true);
      [|congruence].
    unfold unique_name_free. apply forallb_forall. intros r Hr.
    apply negb_true_iff, Hall. by apply list_elem_of_In.
Qed.

(** C5, as stated, fails: the uniqueness constraint of the table is on the
    name as stored, so on a backend that compares stored names exactly the
    storage layer takes a complete row named ["NIGERIA"] next to one named
    ["Nigeria"]; an accepted insert does not keep names distinct up to
    case. *)
Lemma storage_constraint_is_case_sensitive :
  ~ (forall env (w w' : World) (n : string) (c : Country.t) (t : Z),
       db_ok (session w) ->
       session_add_country env (Some n) (Some "Abuja") (Some "Africa") 200000000
         (Some "NGN") (Some 1600%float) (Some 0%float) None (Some t) w
       = (Ok c, w') ->
       NoDup ((fun r => lower (Country.name r)) <$> countries (session w'))).
Proof.
  intros H.
  specialize (H (constant_env 0) nigeria_stored _ "NIGERIA" _ 1
                nigeria_stored_ok eq_refl).
  simpl in H. apply NoDup_cons in H as [Hnotin _].
  apply Hnotin. vm_compute. apply list_elem_of_here.
Qed.

(** C5, amended.  In every world the service reaches by serving requests
    one after the other, on either kind of backend, no two rows of the
    committed table (nor of the session's view) have names that differ
    only in case.  This follows from the case-insensitive lookup every
    upsert makes before it inserts.  The uniqueness constraint of the
    table itself is on the name as stored: the storage layer refuses a
    complete row exactly when a stored name equals the new one under the
    collation of the backend, that is, on a case-sensitive backend only
    for an identical name, and on a case-insensitive one also for a name
    that differs only in case. *)
Theorem reachable_names_unique_up_to_case (w : World) :
  reachable w ->
  NoDup ((fun r => lower (Country.name r)) <$> countries (committed w)) /\
  NoDup ((fun r => lower (Country.name r)) <$> countries (session w)) /\
  NoDup (Country.name <$> countries (committed w)) /\
  (forall env (n : string) (capital region : option string) (population : Z)
          (currency_code : option string)
          (exchange_rate estimated_gdp : option float)
          (flag_url : option string) (t : Z),
     (exists c w',
        session_add_country env (Some n) capital region population
          currency_code exchange_rate estimated_gdp flag_url (Some t) w
        = (Ok c, w')) <->
     match env_collation env with
     | Binary =>
         forall r, r ∈ countries (session w) -> Country.name r <> n
     | NoCase =>
         forall r, r ∈ countries (session w) ->
                   lower (Country.name r) <> lower n
     end).
Proof.
  intros Hr. destruct (reachable_db_ok w Hr) as [Hs Hc].
  split; [apply (ok_names _ Hc)|]. split; [apply (ok_names _ Hs)|].
  split.
  { apply (NoDup_fmap_1 lower). rewrite <- list_fmap_compose.
    apply (ok_names _ Hc). }
  intros env n capital region population currency_code exchange_rate
    estimated_gdp flag_url t.
  rewrite session_add_country_accepts. unfold names_collide.
  destruct (env_collation env); split; intros H r Hin.
  - by apply String.eqb_neq, H.
  - by apply String.eqb_neq, H.
  - by apply String.eqb_neq, H.
  - by apply String.eqb_neq, H.
Qed.

Lemma reachable_names_unique_up_to_case_witness :
  reachable (snd (refresh_all_countries good_env fresh_world)) /\
  NoDup ((fun r => lower (Country.name r))
           <$> countries (committed (snd (refresh_all_countries good_env fresh_world)))).
Proof.
  assert (Hr : reachable (snd (refresh_all_countries good_env fresh_world))).
  { apply reach_refresh. apply reach_start. }
  split; [exact Hr|].
  by destruct (reachable_names_unique_up_to_case _ Hr) as [H _].
Defined.

(** The specification's scenario: ["Nigeria"] then ["NIGERIA"] in one
    cycle leaves one committed row, named as first stored, holding the
    second record's values. *)
Example nigeria_scenario :
  countries (committed (snd (refresh_all_countries good_env fresh_world)))
  = [ Country.mk 1 "Nigeria" (Some "Lagos") None 210000000 None None
        (Some 0%float) None (Some 101) ].
Proof. reflexivity. Qed.

(* ===================================================================== *)
(** ** Lookups after writes *)
(* ===================================================================== *)

(** A lookup by name is decided by the selection it makes. *)
Lemma get_country_by_name_select (name : string) (w : World) :
  get_country_by_name name w
  = scalar_one_or_none
      (filter (fun r => lname r = lower name) (countries (session w))) w.
Proof. reflexivity. Qed.

Lemma get_country_by_name_same_selection (m : string) (w1 w2 : World) :
  filter (fun r => lname r = lower m) (countries (session w1))
  = filter (fun r => lname r = lower m) (countries (session w2)) ->
  fst (get_country_by_name m w1) = fst (get_country_by_name m w2).
Proof.
  intros Heq. rewrite !get_country_by_name_select, Heq.
  by destruct (filter _ (countries (session w2))) as [|? [|? ?]].
Qed.

(** Insert, then look up: after an upsert of a record named [n], a lookup
    under any spelling [m] of that name up to case returns the row the
    upsert wrote and changes nothing. *)
Theorem upsert_then_get_country_by_name env (cd : CountryData)
    (rates : gmap string float) (w : World) (n m : string) :
  db_ok (session w) ->
  cd_name cd = Some n ->
  lower m = lower n ->
  exists c w',
    upsert_country env cd rates w = (Ok c, w') /\
    get_country_by_name m w' = (Ok (Some c), w').
Proof.
  intros Hok Hn Hm.
  destruct (upsert_country_spec env cd rates w n Hok Hn)
    as (g & k & i & nm & d' & _ & Hrun & _ & _ & _ & Hsel & _).
  cbv zeta in Hrun, Hsel. eexists _, _. split; [exact Hrun|].
  rewrite get_country_by_name_select, Hm. cbn [session with_session].
  by rewrite Hsel.
Qed.

Lemma upsert_then_get_country_by_name_witness :
  exists c w',
    upsert_country (constant_env 1500) nigeria ∅ fresh_world = (Ok c, w') /\
    get_country_by_name "nIGERIA" w' = (Ok (Some c), w').
Proof.
  exact (upsert_then_get_country_by_name (constant_env 1500) nigeria ∅
           fresh_world "Nigeria" "nIGERIA" db_ok_empty eq_refl eq_refl).
Defined.

(** An upsert of a record named [n] leaves the answer of a lookup under
    any name that differs from [n] beyond case as it was. *)
Theorem upsert_keeps_other_countries env (cd : CountryData)
    (rates : gmap string float) (w : World) (n m : string) :
  db_ok (session w) ->
  cd_name cd = Some n ->
  lower m <> lower n ->
  fst (get_country_by_name m (snd (upsert_country env cd rates w)))
  = fst (get_country_by_name m w).
Proof.
  intros Hok Hn Hm.
  destruct (upsert_country_spec env cd rates w n Hok Hn)
    as (g & k & i & nm & d' & _ & Hrun & _ & _ & _ & _ & Hoth).
  cbv zeta in Hrun. rewrite Hrun. cbn [snd].
  apply get_country_by_name_same_selection. cbn [session with_session].
  by apply Hoth.
Qed.

Lemma upsert_keeps_other_countries_witness :
  fst (get_country_by_name "Nigeria"
         (snd (upsert_country (constant_env 1500)
                 (mkCountryData (Some "Niger") None None None None None) ∅
                 nigeria_stored)))
  = fst (get_country_by_name "Nigeria" nigeria_stored).
Proof.
  apply (upsert_keeps_other_countries (constant_env 1500) _ ∅ nigeria_stored
           "Niger" "Nigeria"); [|reflexivity|discriminate].
  split; simpl; [apply NoDup_singleton|apply NoDup_singleton|repeat constructor].
Defined.

(** Upsert of a name already stored: the row keeps its primary key and the
    name as first stored (so its casing), and the table keeps its size and
    its sequence. *)
Theorem upsert_existing_keeps_identity env (cd : CountryData)
    (rates : gmap string float) (w : World) (n : string) (old : Country.t) :
  db_ok (session w) ->
  cd_name cd = Some n ->
  old ∈ countries (session w) ->
  lower (Country.name old) = lower n ->
  exists c w',
    upsert_country env cd rates w = (Ok c, w') /\
    Country.id c = Country.id old /\
    Country.name c = Country.name old /\
    length (countries (session w')) = length (countries (session w)) /\
    next_id (session w') = next_id (session w) /\
    Country.id <$> countries (session w') = Country.id <$> countries (session w).
Proof.
  intros Hok Hn Hin Hname.
  destruct (upsert_country_run env cd rates w n Hok Hn)
    as (g & k & _ & [(old' & Hone & Hin' & Hrun)|(Hnil & _)]).
  - assert (Hold' : lname old' = lower n).
    { assert (Ho : old' ∈ filter (fun c => lname c = lower n) (countries (session w)))
        by (rewrite Hone; apply list_elem_of_here).
      by apply list_elem_of_filter in Ho as [? _]. }
    assert (old' = old) as ->.
    { apply (key_inj_on lname (countries (session w))); try done.
      - apply (ok_names _ Hok).
      - unfold lname in *. congruence. }
    eexists _, _. split; [exact Hrun|]. cbn [session with_session countries next_id].
    split; [done|]. split; [done|]. split; [by rewrite length_fmap|].
    split; [done|].
    apply (fmap_key_fmap Country.id).
    intros r Hr.
    by apply (replace_row_id (countries (session w)) old); [apply (ok_ids _ Hok)|..].
  - exfalso. by apply (filter_nil_not_elem_of _ _ old Hnil).
Qed.

Lemma upsert_existing_keeps_identity_witness :
  exists c w',
    upsert_country (constant_env 1500) nigeria_upper ∅ nigeria_stored = (Ok c, w') /\
    Country.id c = 1 /\ Country.name c = "Nigeria".
Proof.
  destruct (upsert_existing_keeps_identity (constant_env 1500) nigeria_upper ∅
              nigeria_stored "NIGERIA"
              (Country.mk 1 "Nigeria" (Some "Abuja") (Some "Africa") 200000000
                 (Some "NGN") (Some 1600%float) (Some 0%float) None (Some 0)))
    as (c & w' & Hrun & Hid & Hnm & _); try reflexivity.
  - split; simpl; [apply NoDup_singleton|apply NoDup_singleton|repeat constructor].
  - apply list_elem_of_here.
  - by exists c, w'.
Defined.

(** Upsert of a name not stored yet: one row is added after the rows
    already stored, which stay as they are, and it carries the name as
    received. *)
Theorem upsert_new_appends env (cd : CountryData) (rates : gmap string float)
    (w : World) (n : string) :
  db_ok (session w) ->
  cd_name cd = Some n ->
  (forall r, r ∈ countries (session w) -> lower (Country.name r) <> lower n) ->
  exists c w',
    upsert_country env cd rates w = (Ok c, w') /\
    countries (session w') = countries (session w) ++ [c] /\
    Country.name c = n /\
    Country.capital c = cd_capital cd /\
    Country.population c = default 0 (cd_population cd).
Proof.
  intros Hok Hn Hnone.
  destruct (upsert_country_run env cd rates w n Hok Hn)
    as (g & k & _ & [(old & Hone & Hin & _)|(_ & Hrun)]).
  - exfalso. apply (Hnone old Hin).
    assert (Ho : old ∈ filter (fun c => lname c = lower n) (countries (session w)))
      by (rewrite Hone; apply list_elem_of_here).
    by apply list_elem_of_filter in Ho as [? _].
  - eexists _, _. split; [exact Hrun|]. by cbn.
Qed.

Lemma upsert_new_appends_witness :
  exists c w',
    upsert_country (constant_env 0) nigeria ∅ fresh_world = (Ok c, w') /\
    countries (session w') = [c] /\ Country.name c = "Nigeria".
Proof.
  destruct (upsert_new_appends (constant_env 0) nigeria ∅ fresh_world "Nigeria"
              db_ok_empty eq_refl) as (c & w' & Hrun & Hrows & Hnm & _).
  - intros r Hr. by apply elem_of_nil in Hr.
  - by exists c, w'.
Defined.

(** Delete, then look up: after a delete by name on a well-formed table,
    whatever it returned, a lookup under any spelling of that name up to
    case finds nothing, and a second delete returns [False] and changes
    nothing. *)
Theorem delete_then_absent (name m : string) (w : World) :
  db_ok (session w) ->
  lower m = lower name ->
  let w' := snd (delete_country_by_name name w) in
  get_country_by_name m w' = (Ok None, w') /\
  delete_country_by_name m w' = (Ok false, w').
Proof.
  intros Hok Hm. cbv zeta.
  assert (Hgone : forall r,
            r ∈ countries (session (snd (delete_country_by_name name w))) ->
            lower (Country.name r) <> lower m).
  { rewrite Hm.
    destruct (delete_country_by_name_run name w Hok)
      as [[Hnone Hrun]|(c & l1 & l2 & w' & _ & _ & Hrun & _ & Hnone & _)];
      by rewrite Hrun. }
  set (w' := snd (delete_country_by_name name w)) in *.
  assert (Hnil : filter (fun r => lname r = lower m) (countries (session w')) = []).
  { apply elem_of_nil_inv. intros r Hr.
    apply list_elem_of_filter in Hr as [Hk Hr]. by apply (Hgone r). }
  split.
  - by rewrite get_country_by_name_select, Hnil.
  - unfold delete_country_by_name, bind. rewrite get_country_by_name_select, Hnil.
    reflexivity.
Qed.

Lemma delete_then_absent_witness :
  get_country_by_name "nigeria" (snd (delete_country_by_name "NIGERIA" nigeria_stored))
  = (Ok None, snd (delete_country_by_name "NIGERIA" nigeria_stored)).
Proof.
  apply (delete_then_absent "NIGERIA" "nigeria" nigeria_stored); [|reflexivity].
  split; simpl; [apply NoDup_singleton|apply NoDup_singleton|repeat constructor].
Defined.

(** A delete by name touches no other country: lookups under a name that
    differs beyond case answer as before, and the table shrinks by one row
    exactly when the delete returned [True]. *)
Theorem delete_keeps_other_countries (name m : string) (w : World) :
  db_ok (session w) ->
  lower m <> lower name ->
  let w' := snd (delete_country_by_name name w) in
  fst (get_country_by_name m w') = fst (get_country_by_name m w) /\
  (fst (delete_country_by_name name w) = Ok true /\
   S (length (countries (session w'))) = length (countries (session w))
   \/
   fst (delete_country_by_name name w) = Ok false /\ w' = w).
Proof.
  intros Hok Hm. cbv zeta.
  destruct (delete_country_by_name_run name w Hok)
    as [[Hnone Hrun]|(c & l1 & l2 & w' & Hrows & Hc & Hrun & Hrows' & _)];
    rewrite Hrun; cbn [fst snd].
  - split; [done|]. by right.
  - split.
    + apply get_country_by_name_same_selection. rewrite Hrows, Hrows'.
      rewrite !filter_app, filter_cons_False; [done|].
      unfold lname. congruence.
    + left. split; [done|]. rewrite Hrows, Hrows', !length_app. simpl. lia.
Qed.

Lemma delete_keeps_other_countries_witness :
  fst (get_country_by_name "Nigeria" (snd (delete_country_by_name "Niger" nigeria_stored)))
  = fst (get_country_by_name "Nigeria" nigeria_stored).
Proof.
  apply (delete_keeps_other_countries "Niger" "Nigeria" nigeria_stored);
    [|discriminate].
  split; simpl; [apply NoDup_singleton|apply NoDup_singleton|repeat constructor].
Defined.

(* ===================================================================== *)
(** ** When several rows match *)
(* ===================================================================== *)

Lemma scalar_one_or_none_many {A} (a b c : list A) (x y : A) (w : World) :
  scalar_one_or_none (a ++ x :: b ++ y :: c) w = (Raise multiple_rows_msg, w).
Proof.
  destruct a as [|a0 [|a1 a]]; simpl; [|done..].
  by destruct b.
Qed.

(** Two matching rows make every lookup by that name raise. *)
Lemma ambiguous_selection_raises env (cd : CountryData) (rates : gmap string float)
    (w : World) (name : string) (l1 l2 l3 : list Country.t) (r1 r2 : Country.t) :
  countries (session w) = l1 ++ r1 :: l2 ++ r2 :: l3 ->
  lower (Country.name r1) = lower name ->
  lower (Country.name r2) = lower name ->
  cd_name cd = Some name ->
  get_country_by_name name w = (Raise multiple_rows_msg, w) /\
  delete_country_by_name name w = (Raise multiple_rows_msg, w) /\
  fst (upsert_country env cd rates w) = Raise multiple_rows_msg /\
  session (snd (upsert_country env cd rates w)) = session w /\
  committed (snd (upsert_country env cd rates w)) = committed w.
Proof.
  intros Hrows H1 H2 Hn.
  assert (Hsel : get_country_by_name name w = (Raise multiple_rows_msg, w)).
  { rewrite get_country_by_name_select, Hrows.
    rewrite filter_app, filter_cons_True by done.
    rewrite filter_app, (filter_cons_True _ r2) by done.
    apply scalar_one_or_none_many. }
  split; [exact Hsel|]. split.
  { unfold delete_country_by_name, bind. by rewrite Hsel. }
  destruct (calculate_estimated_gdp_run env (default 0 (cd_population cd))
    (match extract_currency_code (default [] (cd_currencies cd)) with
     | Some c => if str_truthy c then rates !! c else None
     | None => None
     end) w) as (g & k & Hc).
  unfold upsert_country, bind. rewrite Hc, Hn.
  unfold select_country_by_lower_name, bind, get_session_db, ret.
  cbn [session with_session].
  assert (Hany : forall w0,
            scalar_one_or_none
              (filter (fun c => lower (Country.name c) = lower name)
                      (countries (session w))) w0
            = (Raise multiple_rows_msg, w0)).
  { intros w0. rewrite Hrows.
    rewrite filter_app, filter_cons_True by done.
    rewrite filter_app, (filter_cons_True _ r2) by done.
    apply scalar_one_or_none_many. }
  by rewrite Hany.
Qed.

(** If two rows of the session's table have the looked-up name up to case
    (the table's constraint does not exclude it), the lookup raises, and
    with it the delete and every upsert of that name; none of them changes
    the table or commits. *)
Theorem ambiguous_name_raises env (cd : CountryData) (rates : gmap string float)
    (w : World) (name : string) (l1 l2 l3 : list Country.t) (r1 r2 : Country.t) :
  countries (session w) = l1 ++ r1 :: l2 ++ r2 :: l3 ->
  lower (Country.name r1) = lower name ->
  lower (Country.name r2) = lower name ->
  cd_name cd = Some name ->
  get_country_by_name name w = (Raise multiple_rows_msg, w) /\
  delete_country_by_name name w = (Raise multiple_rows_msg, w) /\
  fst (upsert_country env cd rates w) = Raise multiple_rows_msg /\
  session (snd (upsert_country env cd rates w)) = session w /\
  committed (snd (upsert_country env cd rates w)) = committed w.
Proof. exact (ambiguous_selection_raises env cd rates w name l1 l2 l3 r1 r2). Qed.

Lemma ambiguous_name_raises_witness :
  get_country_by_name "nigeria" nigeria_twice
  = (Raise multiple_rows_msg, nigeria_twice).
Proof.
  by destruct (ambiguous_name_raises (constant_env 1500)
                 (mkCountryData (Some "nigeria") None None None None None) ∅
                 nigeria_twice "nigeria" [] [] []
                 (Country.mk 1 "Nigeria" (Some "Abuja") (Some "Africa") 200000000
                    (Some "NGN") (Some 1600%float) (Some 0%float) None (Some 0))
                 (Country.mk 2 "NIGERIA" None None 0 None None (Some 0%float) None (Some 0))
                 eq_refl eq_refl eq_refl eq_refl) as [H _].
Defined.

(* ===================================================================== *)
(** ** Failed cycles *)
(* ===================================================================== *)

(** An upsert, on any table and with any outcome, only moves the session
    view and the two cursors. *)
Lemma upsert_country_frame env (cd : CountryData) (rates : gmap string float)
    (w : World) :
  committed (snd (upsert_country env cd rates w)) = committed w /\
  stdout (snd (upsert_country env cd rates w)) = stdout w /\
  cache_file (snd (upsert_country env cd rates w)) = cache_file w.
Proof.
  destruct (calculate_estimated_gdp_run env (default 0 (cd_population cd))
    (match extract_currency_code (default [] (cd_currencies cd)) with
     | Some c => if str_truthy c then rates !! c else None
     | None => None
     end) w) as (g & k & Hc).
  unfold upsert_country, bind. rewrite Hc.
  unfold select_country_by_lower_name, bind, get_session_db, ret.
  cbn [session with_session].
  destruct (cd_name cd) as [n|].
  - destruct (filter (fun c => lower (Country.name c) = lower n)
                (countries (session w))) as [|x [|y l]]; cbn.
    + unfold session_add_country, bind, get_session_db, put_session_db, ret, raise.
      cbn. by destruct (unique_name_free env n (countries (session w))).
    + done.
    + done.
  - done.
Qed.

Lemma upsert_each_frame env (countries_data : list CountryData)
    (rates : gmap string float) (w : World) :
  committed (snd (upsert_each env countries_data rates w)) = committed w /\
  stdout (snd (upsert_each env countries_data rates w)) = stdout w /\
  cache_file (snd (upsert_each env countries_data rates w)) = cache_file w.
Proof.
  revert w. induction countries_data as [|cd rest IH]; intros w; [done|].
  simpl. unfold bind.
  destruct (upsert_country_frame env cd rates w) as (Hc & Ho & Hf).
  destruct (upsert_country env cd rates w) as [[c|e] w1]; cbn [snd] in *.
  - destruct (IH w1) as (Hc' & Ho' & Hf'). repeat split; congruence.
  - done.
Qed.

(** What a cycle does once the batch of upserts has succeeded. *)
Lemma refresh_all_countries_after_upserts env (w w1 : World)
    (countries_data : list CountryData) (rates : option (gmap string float)) :
  env_countries env = HttpOk countries_data ->
  env_rates env = HttpOk rates ->
  upsert_each env countries_data (default ∅ rates) w = (Ok tt, w1) ->
  let t := env_now env (ticks w1) in
  let final :=
    mkDB (countries (session w1)) (next_id (session w1))
         (<[1 := Some t]> (app_metadata (session w1))) in
  refresh_all_countries env w
  = (Ok (length countries_data, t),
     match env_image env with
     | Some e =>
         mkWorld final final (stdout w1 ++ [image_warning e]) (cache_file w1)
                 (draws w1) (S (ticks w1))
     | None =>
         mkWorld final final (stdout w1)
                 (Some (mkSummary (length countries_data)
                          (summary_entries
                             (take 5 (order_by estimated_gdp_desc
                                        (countries (session w1)))))
                          t))
                 (draws w1) (S (ticks w1))
     end).
Proof.
  intros Hc Hr Hrun. cbv zeta.
  unfold refresh_all_countries, bind, fetch_countries_data, fetch_exchange_rate.
  rewrite Hc, Hr. unfold ret at 1 2. rewrite Hrun.
  unfold datetime_now, update_app_metadata, get_top_countries_by_gdp, try_except,
    generate_summary_image, write_cache_file, print, session_commit, bind,
    get_session_db, put_session_db, raise, ret.
  cbn [session committed stdout cache_file draws ticks countries next_id
       app_metadata].
  destruct (app_metadata (session w1) !! 1);
    cbn [session committed stdout cache_file draws ticks countries next_id
         app_metadata];
    destruct (env_image env); reflexivity.
Qed.

(** A cycle that raises has only moved the session view and the cursors. *)
Lemma refresh_raise_frame env (w w' : World) (e : string) :
  refresh_all_countries env w = (Raise e, w') ->
  committed w' = committed w /\
  stdout w' = stdout w /\
  cache_file w' = cache_file w.
Proof.
  unfold refresh_all_countries, bind, fetch_countries_data, fetch_exchange_rate,
    ret, raise.
  destruct (env_countries env) as [body| |detail];
    [|by intros [= _ <-]|by intros [= _ <-]].
  destruct (env_rates env) as [data| |detail];
    [|by intros [= _ <-]|by intros [= _ <-]].
  cbv beta iota.
  destruct (upsert_each_frame env body (default ∅ data) w) as (Hc & Ho & Hf).
  destruct (upsert_each env body (default ∅ data) w) as [[[]|msg] w1];
    cbn [snd] in *.
  - unfold datetime_now, update_app_metadata, get_top_countries_by_gdp, try_except,
      generate_summary_image, write_cache_file, print, session_commit, bind,
      get_session_db, put_session_db, raise, ret.
    cbn [session committed stdout cache_file draws ticks countries next_id
         app_metadata].
    destruct (app_metadata (session w1) !! 1);
      cbn [session committed stdout cache_file draws ticks countries next_id
           app_metadata];
      destruct (env_image env); discriminate.
  - by intros [= _ <-].
Qed.

(** A record without a ["name"] key cannot be stored: its upsert raises
    and leaves the table as it was. *)
Lemma upsert_country_nameless env (cd : CountryData) (rates : gmap string float)
    (w : World) :
  cd_name cd = None ->
  exists e, fst (upsert_country env cd rates w) = Raise e /\
            session (snd (upsert_country env cd rates w)) = session w.
Proof.
  intros Hn.
  destruct (calculate_estimated_gdp_run env (default 0 (cd_population cd))
    (match extract_currency_code (default [] (cd_currencies cd)) with
     | Some c => if str_truthy c then rates !! c else None
     | None => None
     end) w) as (g & k & Hc).
  unfold upsert_country, bind. rewrite Hc, Hn. by eexists.
Qed.

Lemma upsert_each_nameless env (countries_data : list CountryData)
    (rates : gmap string float) (w : World) :
  db_ok (session w) ->
  Exists (fun cd => cd_name cd = None) countries_data ->
  exists e, fst (upsert_each env countries_data rates w) = Raise e.
Proof.
  revert w. induction countries_data as [|cd rest IH]; intros w Hok Hex.
  - by apply Exists_nil in Hex.
  - simpl. unfold bind. destruct (cd_name cd) as [n|] eqn:Hn.
    + apply Exists_cons in Hex as [Hhead|Hrest]; [congruence|].
      destruct (upsert_country_spec env cd rates w n Hok Hn)
        as (g & k & i & nm & d' & _ & Hrun & Hok' & _).
      cbv zeta in Hrun. rewrite Hrun.
      apply (IH (with_session w d' k (S (ticks w))) Hok' Hrest).
    + destruct (upsert_country_nameless env cd rates w Hn) as (e & He & _).
      destruct (upsert_country env cd rates w) as [[c|e'] w1]; cbn [fst] in He;
        [discriminate|]. by exists e'.
Qed.

(** One record without a name aborts the whole cycle: although both
    fetches succeeded, the cycle raises and none of the batch, not even
    the records before the faulty one, is committed. *)
Theorem refresh_aborts_on_nameless_record env (w : World)
    (L : list CountryData) (rates : option (gmap string float)) :
  env_countries env = HttpOk L ->
  env_rates env = HttpOk rates ->
  db_ok (session w) ->
  Exists (fun cd => cd_name cd = None) L ->
  exists e,
    fst (refresh_all_countries env w) = Raise e /\
    committed (snd (refresh_all_countries env w)) = committed w.
Proof.
  intros Hc Hr Hok Hex.
  destruct (upsert_each_nameless env L (default ∅ rates) w Hok Hex) as (e & He).
  assert (Hrun : fst (refresh_all_countries env w) = Raise e).
  { unfold refresh_all_countries, bind, fetch_countries_data, fetch_exchange_rate.
    rewrite Hc, Hr. unfold ret at 1 2.
    destruct (upsert_each env L (default ∅ rates) w) as [[[]|msg] w1];
      cbn [fst] in He; [discriminate|]. by injection He as ->. }
  exists e. split; [exact Hrun|].
  destruct (refresh_all_countries env w) as [r w'] eqn:Hall.
  cbn [fst snd] in *. subst r.
  by destruct (refresh_raise_frame env w w' e Hall) as [? _].
Qed.

Lemma refresh_aborts_on_nameless_record_witness :
  exists e,
    fst (refresh_all_countries nameless_env fresh_world) = Raise e /\
    committed (snd (refresh_all_countries nameless_env fresh_world)) = empty_db.
Proof.
  destruct (refresh_aborts_on_nameless_record nameless_env fresh_world
              [nigeria; mkCountryData None (Some "Accra") None None None None]
              None eq_refl eq_refl db_ok_empty) as (e & He & Hcm).
  - apply Exists_cons_tl, Exists_cons_hd. reflexivity.
  - exists e. by split.
Defined.

(* ===================================================================== *)
(** ** Repeated cycles *)
(* ===================================================================== *)

(** The batch of upserts never removes or moves a stored row: the stored
    names and primary keys stay where they are, the rows it adds come
    after them, at most one per record, and none is added when every
    record's name is already stored up to case. *)
Lemma upsert_each_shape env (countries_data : list CountryData)
    (rates : gmap string float) (w : World) :
  db_ok (session w) ->
  Forall (fun cd => is_Some (cd_name cd)) countries_data ->
  exists w' added,
    upsert_each env countries_data rates w = (Ok tt, w') /\
    db_ok (session w') /\
    Country.name <$> countries (session w')
    = (Country.name <$> countries (session w)) ++ (Country.name <$> added) /\
    Country.id <$> countries (session w')
    = (Country.id <$> countries (session w)) ++ (Country.id <$> added) /\
    (length added <= length countries_data)%nat /\
    (Forall (fun cd => forall n, cd_name cd = Some n ->
                                 lower n ∈ lname <$> countries (session w))
            countries_data ->
     added = []).
Proof.
  revert w. induction countries_data as [|cd rest IH]; intros w Hok Hall.
  - exists w, []. rewrite !fmap_nil, !app_nil_r.
    split; [done|]. split; [done|]. split; [done|]. split; [done|].
    split; [simpl; lia|done].
  - apply Forall_cons in Hall as [[n Hn] Hall].
    destruct (upsert_country_run env cd rates w n Hok Hn)
      as (g & k & _ & [(old & Hone & Hin & Hrun)|(Hnil & Hrun)]).
    + assert (Hok1 : db_ok (session (snd (upsert_country env cd rates w)))).
      { by apply upsert_country_preserves. }
      rewrite Hrun in Hok1. cbn [snd session with_session] in Hok1.
      destruct (IH (with_session w _ k (S (ticks w))) Hok1 Hall)
        as (w' & added & Hrest & Hok' & Hnames & Hids & Hlen & Hknown).
      cbn [session with_session countries] in Hnames, Hids, Hknown.
      assert (Hsame_id : Country.id <$> (replace_row
                 (written_row cd rates g (env_now env (ticks w))
                    (Country.id old) (Country.name old)) <$> countries (session w))
               = Country.id <$> countries (session w)).
      { apply (fmap_key_fmap Country.id). intros r Hr.
        by apply (replace_row_id (countries (session w)) old);
          [apply (ok_ids _ Hok)|..]. }
      assert (Hsame_name : Country.name <$> (replace_row
                 (written_row cd rates g (env_now env (ticks w))
                    (Country.id old) (Country.name old)) <$> countries (session w))
               = Country.name <$> countries (session w)).
      { apply (fmap_key_fmap Country.name). intros r Hr.
        destruct (replace_row_cases (countries (session w)) old
                    (written_row cd rates g (env_now env (ticks w))
                       (Country.id old) (Country.name old))
                    (ok_ids _ Hok) Hin eq_refl r Hr) as [[-> ->]|[_ ->]]; done. }
      assert (Hsame_lname : lname <$> (replace_row
                 (written_row cd rates g (env_now env (ticks w))
                    (Country.id old) (Country.name old)) <$> countries (session w))
               = lname <$> countries (session w)).
      { apply (fmap_key_fmap lname). intros r Hr.
        by apply (replace_row_lname (countries (session w)) old);
          [apply (ok_ids _ Hok)|..]. }
      exists w', added. split.
      { simpl. unfold bind. by rewrite Hrun. }
      split; [done|]. rewrite Hsame_name in Hnames. rewrite Hsame_id in Hids.
      split; [done|]. split; [done|]. split; [simpl; lia|].
      intros Hk. apply Forall_cons in Hk as [_ Hk]. apply Hknown.
      by rewrite Hsame_lname.
    + assert (Hok1 : db_ok (session (snd (upsert_country env cd rates w)))).
      { by apply upsert_country_preserves. }
      rewrite Hrun in Hok1. cbn [snd session with_session] in Hok1.
      destruct (IH (with_session w _ k (S (ticks w))) Hok1 Hall)
        as (w' & added & Hrest & Hok' & Hnames & Hids & Hlen & Hknown).
      cbn [session with_session countries] in Hnames, Hids, Hknown.
      exists w', (written_row cd rates g (env_now env (ticks w))
                    (next_id (session w)) n :: added).
      split.
      { simpl. unfold bind. by rewrite Hrun. }
      split; [done|].
      rewrite fmap_app, <- app_assoc in Hnames.
      rewrite fmap_app, <- app_assoc in Hids.
      split; [done|]. split; [done|]. split; [simpl; lia|].
      intros Hk. apply Forall_cons in Hk as [Hhead _]. exfalso.
      by apply (filter_key_nil_not_in lname _ _ Hnil), Hhead.
Qed.

(** A successful cycle never removes or moves a stored country: in the
    committed table the names and primary keys stored before keep their
    places, and at most one row per fetched record comes after them. *)
Theorem refresh_keeps_stored_rows env (w : World) (L : list CountryData)
    (rates : option (gmap string float)) :
  env_countries env = HttpOk L ->
  env_rates env = HttpOk rates ->
  Forall (fun cd => is_Some (cd_name cd)) L ->
  db_ok (session w) ->
  exists res w' added,
    refresh_all_countries env w = (Ok res, w') /\
    Country.name <$> countries (committed w')
    = (Country.name <$> countries (session w)) ++ (Country.name <$> added) /\
    Country.id <$> countries (committed w')
    = (Country.id <$> countries (session w)) ++ (Country.id <$> added) /\
    (length added <= length L)%nat.
Proof.
  intros Hc Hr Hall Hok.
  destruct (upsert_each_shape env L (default ∅ rates) w Hok Hall)
    as (w1 & added & Hrun & _ & Hnames & Hids & Hlen & _).
  pose proof (refresh_all_countries_after_upserts env w w1 L rates Hc Hr Hrun)
    as Hall'. cbv zeta in Hall'.
  eexists _, _, added. split; [exact Hall'|].
  by destruct (env_image env).
Qed.

Lemma refresh_keeps_stored_rows_witness :
  exists res w' added,
    refresh_all_countries good_env nigeria_stored = (Ok res, w') /\
    Country.name <$> countries (committed w')
    = (Country.name <$> countries (session nigeria_stored))
        ++ (Country.name <$> added).
Proof.
  destruct (refresh_keeps_stored_rows good_env nigeria_stored
              [nigeria; nigeria_upper] (Some {[ "NGN" := 1600%float ]})
              eq_refl eq_refl good_env_named)
    as (res & w' & added & Hrun & Hnames & _).
  - split; simpl; [apply NoDup_singleton|apply NoDup_singleton|repeat constructor].
  - by exists res, w', added.
Defined.

Lemma selection_nonempty_known (m : string) (rows : list Country.t) :
  filter (fun r => lname r = m) rows <> [] -> m ∈ lname <$> rows.
Proof.
  destruct (filter (fun r => lname r = m) rows) as [|x l] eqn:Hf; [done|].
  intros _. assert (Hx : x ∈ filter (fun r => lname r = m) rows)
    by (rewrite Hf; apply list_elem_of_here).
  apply list_elem_of_filter in Hx as [Hk Hx].
  apply list_elem_of_fmap. by exists x.
Qed.

(** Cycles converge: when a second cycle fetches the same record list as a
    successful first one (with any rates and any random draws), it adds no
    row, and every country keeps its stored name, its primary key and its
    place in the table. *)
Theorem refresh_twice_converges env1 env2 (w : World) (L : list CountryData)
    (rates1 rates2 : option (gmap string float)) :
  env_countries env1 = HttpOk L ->
  env_rates env1 = HttpOk rates1 ->
  env_countries env2 = HttpOk L ->
  env_rates env2 = HttpOk rates2 ->
  Forall (fun cd => is_Some (cd_name cd)) L ->
  db_ok (session w) ->
  exists res1 w1 res2 w2,
    refresh_all_countries env1 w = (Ok res1, w1) /\
    refresh_all_countries env2 w1 = (Ok res2, w2) /\
    Country.name <$> countries (committed w2)
    = Country.name <$> countries (committed w1) /\
    Country.id <$> countries (committed w2)
    = Country.id <$> countries (committed w1).
Proof.
  intros Hc1 Hr1 Hc2 Hr2 Hall Hok.
  destruct (refresh_all_countries_run env1 w L rates1 Hc1 Hr1 Hall Hok)
    as (d1 & k1 & Hok1 & Hnew & Hrun1). cbv zeta in Hrun1.
  set (t1 := env_now env1 (ticks w + length L)%nat) in *.
  set (final1 := mkDB (countries d1) (next_id d1)
                      (<[1 := Some t1]> (app_metadata (session w)))) in *.
  assert (Hokf : db_ok final1) by (destruct Hok1; by split).
  assert (Hknown : Forall (fun cd => forall n, cd_name cd = Some n ->
                             lower n ∈ lname <$> countries final1) L).
  { apply Forall_forall. intros cd Hcd n Hn.
    apply selection_nonempty_known. by apply (Hnew cd). }
  set (w1 := snd (refresh_all_countries env1 w)).
  assert (Hs1 : session w1 = final1 /\ committed w1 = final1).
  { unfold w1. rewrite Hrun1. by destruct (env_image env1). }
  destruct Hs1 as [Hs1 Hcm1].
  assert (Hok_w1 : db_ok (session w1)) by by rewrite Hs1.
  destruct (upsert_each_shape env2 L (default ∅ rates2) w1 Hok_w1 Hall)
    as (w2' & added & Hrun2 & _ & Hnames & Hids & _ & Hnone).
  rewrite Hnone in Hnames, Hids by by rewrite Hs1.
  rewrite fmap_nil, app_nil_r in Hnames. rewrite fmap_nil, app_nil_r in Hids.
  pose proof (refresh_all_countries_after_upserts env2 w1 w2' L rates2 Hc2 Hr2 Hrun2)
    as Hall2. cbv zeta in Hall2.
  eexists _, w1, _, _. split.
  { unfold w1. by destruct (refresh_all_countries env1 w) as [r ww] eqn:E;
      injection Hrun1 as <- _. }
  split; [exact Hall2|]. rewrite Hcm1, <- Hs1.
  by destruct (env_image env2).
Qed.

Lemma refresh_twice_converges_witness :
  exists res1 w1 res2 w2,
    refresh_all_countries good_env fresh_world = (Ok res1, w1) /\
    refresh_all_countries (with_image good_env (Some "disk full")) w1
    = (Ok res2, w2) /\
    Country.name <$> countries (committed w2)
    = Country.name <$> countries (committed w1).
Proof.
  destruct (refresh_twice_converges good_env
              (with_image good_env (Some "disk full")) fresh_world
              [nigeria; nigeria_upper] (Some {[ "NGN" := 1600%float ]})
              (Some {[ "NGN" := 1600%float ]})
              eq_refl eq_refl eq_refl eq_refl good_env_named db_ok_empty)
    as (r1 & w1 & r2 & w2 & H1 & H2 & Hn & _).
  by exists r1, w1, r2, w2.
Defined.

(* ===================================================================== *)
(** ** Filters and orderings of the listing *)
(* ===================================================================== *)

Section Ordering.
Context {A : Type} (le : A -> A -> bool).
Hypothesis le_total : forall a b, le a b = false -> le b a = true.
Hypothesis le_trans : forall a b c, le a b = true -> le b c = true -> le a c = true.

Lemma insert_sorted_strongly_sorted (x : A) (l : list A) :
  StronglySorted (fun a b => le a b = true) l ->
  StronglySorted (fun a b => le a b = true) (insert_sorted le x l).
Proof.
  induction l as [|y l IH]; intros Hs; simpl.
  - repeat constructor.
  - apply StronglySorted_cons in Hs as [Hy Hs].
    destruct (le x y) eqn:Hxy.
    + apply StronglySorted_cons. split.
      * constructor; [done|]. eapply Forall_impl; [exact Hy|].
        intros z Hz. by apply (le_trans x y z).
      * by apply StronglySorted_cons.
    + apply StronglySorted_cons. split; [|by apply IH].
      apply Forall_forall. intros z Hz.
      rewrite insert_sorted_perm in Hz. apply elem_of_cons in Hz as [->|Hz].
      * by apply le_total.
      * by apply (proj1 (Forall_forall _ _) Hy).
Qed.

Lemma order_by_strongly_sorted (l : list A) :
  StronglySorted (fun a b => le a b = true) (order_by le l).
Proof.
  induction l as [|x l IH]; [constructor|].
  by apply insert_sorted_strongly_sorted.
Qed.
End Ordering.

Lemma StronglySorted_impl_on {A} (R1 R2 : A -> A -> Prop) (P : A -> Prop)
    (l : list A) :
  (forall a b, P a -> P b -> R1 a b -> R2 a b) ->
  Forall P l -> StronglySorted R1 l -> StronglySorted R2 l.
Proof.
  intros Himp. induction l as [|x l IH]; intros HP Hs; [constructor|].
  apply Forall_cons in HP as [Hx HP].
  apply StronglySorted_cons in Hs as [Hall Hs].
  apply StronglySorted_cons. split; [|by apply IH].
  apply Forall_forall. intros z Hz. apply Himp; [done| |].
  - by apply (proj1 (Forall_forall _ _) HP).
  - by apply (proj1 (Forall_forall _ _) Hall).
Qed.

(** The listing returns exactly the rows that pass the filters: a row is
    listed when and only when it is in the table and, for each filter that
    is given and not empty, its column is not NULL and equals the filter
    value up to case.  This holds for every sort argument. *)
Theorem get_countries_with_filters_selects (region currency sort : option string)
    (w : World) :
  exists rows,
    get_countries_with_filters region currency sort w = (Ok rows, w) /\
    forall c,
      c ∈ rows <->
      c ∈ countries (session w) /\
      match region with
      | Some r =>
          r = "" \/ exists x, Country.region c = Some x /\ lower x = lower r
      | None => True
      end /\
      match currency with
      | Some cur =>
          cur = "" \/
          exists x, Country.currency_code c = Some x /\ lower x = lower cur
      | None => True
      end.
Proof.
  destruct (get_countries_with_filters_perm region currency sort w)
    as (rows & Hrun & Hperm).
  exists rows. split; [exact Hrun|]. intros c. rewrite Hperm.
  unfold selected_rows, where_lower_eq.
  assert (Hcol : forall (col : option string) (v : string),
            lower <$> col = Some (lower v) <->
            exists x, col = Some x /\ lower x = lower v).
  { intros [x|] v; simpl; split.
    - intros [= Hx]. by exists x.
    - intros (y & [= <-] & Hy). by rewrite Hy.
    - done.
    - by intros (y & Hy & _). }
  destruct region as [[|c1 r]|], currency as [[|c2 cur]|]; cbn [str_truthy];
    rewrite ?list_elem_of_filter, ?Hcol; clear Hcol;
    intuition (try discriminate; eauto).
Qed.

(** With [sort=population_desc] the listing is in descending order of
    population, and with [sort=population_asc] in ascending order: every
    listed row stands before all rows of smaller (resp. larger)
    population that follow it. *)
Theorem population_sort_is_sorted (region currency : option string) (w : World) :
  (exists rows,
     get_countries_with_filters region currency (Some "population_desc") w
     = (Ok rows, w) /\
     StronglySorted
       (fun a b => Country.population b <= Country.population a) rows) /\
  (exists rows,
     get_countries_with_filters region currency (Some "population_asc") w
     = (Ok rows, w) /\
     StronglySorted
       (fun a b => Country.population a <= Country.population b) rows).
Proof.
  split; eexists; (split; [reflexivity|]).
  - eapply (StronglySorted_impl_on _ _ (fun _ => True)); cycle 2.
    + apply (order_by_strongly_sorted population_desc).
      * intros a b H. unfold population_desc in *. lia.
      * intros a b c H1 H2. unfold population_desc in *. lia.
    + intros a b _ _ H. unfold population_desc in H. lia.
    + by apply Forall_forall.
  - eapply (StronglySorted_impl_on _ _ (fun _ => True)); cycle 2.
    + apply (order_by_strongly_sorted population_asc).
      * intros a b H. unfold population_asc in *. lia.
      * intros a b c H1 H2. unfold population_asc in *. lia.
    + intros a b _ _ H. unfold population_asc in H. lia.
    + by apply Forall_forall.
Qed.

(* ===================================================================== *)
(** ** More invariants of reachable worlds *)
(* ===================================================================== *)

Lemma upsert_country_filled env (cd : CountryData) (rates : gmap string float)
    (w : World) :
  Forall row_filled (countries (session w)) ->
  Forall row_filled (countries (session (snd (upsert_country env cd rates w)))).
Proof.
  intros Hf.
  destruct (calculate_estimated_gdp_run env (default 0 (cd_population cd))
    (match extract_currency_code (default [] (cd_currencies cd)) with
     | Some c => if str_truthy c then rates !! c else None
     | None => None
     end) w) as (g & k & Hc).
  unfold upsert_country, bind. rewrite Hc.
  unfold select_country_by_lower_name, bind, get_session_db, ret.
  cbn [session with_session].
  destruct (cd_name cd) as [n|]; [|done].
  destruct (filter (fun c => lower (Country.name c) = lower n)
              (countries (session w))) as [|x [|y l]]; cbn; [| |done].
  - unfold session_add_country, bind, get_session_db, put_session_db, ret, raise.
    cbn. destruct (unique_name_free env n (countries (session w))); cbn; [|done].
    apply Forall_app. split; [done|]. apply Forall_singleton.
    split; by eexists.
  - apply Forall_fmap, Forall_forall. intros r Hr. cbn.
    case_bool_decide; [split; by eexists|].
    by apply (proj1 (Forall_forall _ _) Hf).
Qed.

Lemma upsert_each_filled env (countries_data : list CountryData)
    (rates : gmap string float) (w : World) :
  Forall row_filled (countries (session w)) ->
  Forall row_filled
    (countries (session (snd (upsert_each env countries_data rates w)))).
Proof.
  revert w. induction countries_data as [|cd rest IH]; intros w Hf; [done|].
  simpl. unfold bind.
  pose proof (upsert_country_filled env cd rates w Hf) as H1.
  destruct (upsert_country env cd rates w) as [[c|e] w1]; cbn [snd] in *;
    [by apply IH|done].
Qed.

Lemma refresh_all_countries_filled env (w : World) :
  Forall row_filled (countries (session w)) ->
  Forall row_filled (countries (committed w)) ->
  Forall row_filled (countries (session (snd (refresh_all_countries env w)))) /\
  Forall row_filled (countries (committed (snd (refresh_all_countries env w)))).
Proof.
  intros Hs Hc.
  unfold refresh_all_countries, bind, fetch_countries_data, fetch_exchange_rate,
    ret, raise.
  destruct (env_countries env) as [body| |detail]; [|done..].
  destruct (env_rates env) as [data| |detail]; [|done..].
  cbv beta iota.
  pose proof (upsert_each_filled env body (default ∅ data) w Hs) as H1.
  destruct (upsert_each_frame env body (default ∅ data) w) as (Hcm1 & _).
  destruct (upsert_each env body (default ∅ data) w) as [[[]|msg] w1];
    cbn [fst snd] in *; [|by rewrite Hcm1].
  unfold datetime_now, update_app_metadata, get_top_countries_by_gdp, try_except,
    generate_summary_image, write_cache_file, print, session_commit, bind,
    get_session_db, put_session_db, raise, ret.
  cbn [session committed stdout cache_file draws ticks countries next_id
       app_metadata].
  destruct (app_metadata (session w1) !! 1);
    cbn [session committed stdout cache_file draws ticks countries next_id
         app_metadata];
    destruct (env_image env); cbn [fst snd session committed countries]; by split.
Qed.

Lemma delete_country_by_name_filled (name : string) (w : World) :
  Forall row_filled (countries (session w)) ->
  Forall row_filled (countries (committed w)) ->
  Forall row_filled (countries (session (snd (delete_country_by_name name w)))) /\
  Forall row_filled (countries (committed (snd (delete_country_by_name name w)))).
Proof.
  intros Hs Hc.
  unfold delete_country_by_name, bind. rewrite get_country_by_name_select.
  destruct (filter (fun r => lname r = lower name)
              (countries (session w))) as [|x [|y l]]; cbn;
    [by split| |by split].
  assert (Hsub : Forall row_filled
            (filter (fun r => Country.id r <> Country.id x) (countries (session w)))).
  { apply Forall_forall. intros r Hr. apply list_elem_of_filter in Hr as [_ Hr].
    by apply (proj1 (Forall_forall _ _) Hs). }
  by split.
Qed.

(** In every world the service reaches, each committed row (and each row
    of the session's view) has its [estimated_gdp] and its
    [last_refreshed_at] filled: the two derived columns are never NULL. *)
Theorem reachable_rows_filled (w : World) :
  reachable w ->
  Forall row_filled (countries (committed w)) /\
  Forall row_filled (countries (session w)).
Proof.
  induction 1 as [out cf k t|w _ [Hc Hs]|env cd rates w _ [Hc Hs]
                 |env w _ [Hc Hs]|name w _ [Hc Hs]].
  - by split.
  - by split.
  - split.
    + by destruct (upsert_country_frame env cd rates w) as [-> _].
    + by apply upsert_country_filled.
  - destruct (refresh_all_countries_filled env w Hs Hc). by split.
  - destruct (delete_country_by_name_filled name w Hs Hc). by split.
Qed.

Lemma reachable_rows_filled_witness :
  Forall row_filled
    (countries (committed (snd (refresh_all_countries good_env fresh_world)))).
Proof.
  assert (Hr : reachable (snd (refresh_all_countries good_env fresh_world))).
  { apply reach_refresh. apply reach_start. }
  by destruct (reachable_rows_filled _ Hr) as [H _].
Defined.


(* ===================================================================== *)
(** ** Orderings by estimated GDP *)
(* ===================================================================== *)

Lemma SFleb_trans (a b c : spec_float) :
  SFleb a b = true -> SFleb b c = true -> SFleb a c = true.
Proof.
  unfold SFleb.
  destruct a as [sa|sa| |sa ma ea], b as [sb|sb| |sb mb eb],
    c as [sc|sc| |sc mc ec]; cbn; try done;
    try (destruct sa; cbn; try done); try (destruct sb; cbn; try done);
    try (destruct sc; cbn; try done).
  all: change (Pos.compare_cont Eq) with Pos.compare.
  all: destruct (Z.compare_spec ea eb), (Z.compare_spec eb ec),
         (Z.compare_spec ea ec); try lia; try done; subst.
  all: destruct (Pos.compare_spec ma mb), (Pos.compare_spec mb mc),
         (Pos.compare_spec ma mc); cbn; try lia; try done.
Qed.

Lemma SFleb_total (a b : spec_float) :
  SFleb a a = true -> SFleb b b = true -> SFleb a b = false -> SFleb b a = true.
Proof.
  unfold SFleb.
  destruct a as [sa|sa| |sa ma ea], b as [sb|sb| |sb mb eb]; cbn; try done;
    try (destruct sa; cbn; try done); try (destruct sb; cbn; try done).
  all: change (Pos.compare_cont Eq) with Pos.compare.
  all: intros _ _.
  all: destruct (Z.compare_spec ea eb), (Z.compare_spec eb ea); try lia;
         try done; subst.
  all: destruct (Pos.compare_spec ma mb), (Pos.compare_spec mb ma); cbn;
         try lia; try done.
Qed.

Lemma float_leb_trans (x y z : float) :
  (x <=? y)%float = true -> (y <=? z)%float = true -> (x <=? z)%float = true.
Proof. rewrite !leb_spec. apply SFleb_trans. Qed.

Lemma float_leb_total (x y : float) :
  (x <=? x)%float = true -> (y <=? y)%float = true ->
  (x <=? y)%float = false -> (y <=? x)%float = true.
Proof. rewrite !leb_spec. apply SFleb_total. Qed.

Section OrderingOn.
Context {A : Type} (le : A -> A -> bool) (P : A -> Prop).
Hypothesis le_total_on :
  forall a b, P a -> P b -> le a b = false -> le b a = true.
Hypothesis le_trans : forall a b c, le a b = true -> le b c = true -> le a c = true.

Lemma insert_sorted_strongly_sorted_on (x : A) (l : list A) :
  P x -> Forall P l ->
  StronglySorted (fun a b => le a b = true) l ->
  StronglySorted (fun a b => le a b = true) (insert_sorted le x l).
Proof.
  intros Hx. induction l as [|y l IH]; intros HP Hs; simpl.
  - repeat constructor.
  - apply Forall_cons in HP as [Hy HP].
    apply StronglySorted_cons in Hs as [Hall Hs].
    destruct (le x y) eqn:Hxy.
    + apply StronglySorted_cons. split.
      * constructor; [done|]. eapply Forall_impl; [exact Hall|].
        intros z Hz. by apply (le_trans x y z).
      * by apply StronglySorted_cons.
    + apply StronglySorted_cons. split; [|by apply IH].
      apply Forall_forall. intros z Hz.
      rewrite insert_sorted_perm in Hz. apply elem_of_cons in Hz as [->|Hz].
      * by apply le_total_on.
      * by apply (proj1 (Forall_forall _ _) Hall).
Qed.

Lemma order_by_strongly_sorted_on (l : list A) :
  Forall P l -> StronglySorted (fun a b => le a b = true) (order_by le l).
Proof.
  induction l as [|x l IH]; intros HP; [constructor|].
  apply Forall_cons in HP as [Hx HP].
  apply insert_sorted_strongly_sorted_on; [done| |by apply IH].
  change (Forall P (order_by le l)). by rewrite order_by_perm.
Qed.
End OrderingOn.

Lemma null_low_le_trans (a b c : option float) :
  null_low_le a b = true -> null_low_le b c = true -> null_low_le a c = true.
Proof.
  destruct a as [x|], b as [y|], c as [z|]; simpl; try done.
  apply float_leb_trans.
Qed.

Lemma gdp_comparable_total (a b : Country.t) :
  gdp_comparable a -> gdp_comparable b ->
  null_low_le (Country.estimated_gdp a) (Country.estimated_gdp b) = false ->
  null_low_le (Country.estimated_gdp b) (Country.estimated_gdp a) = true.
Proof.
  intros (x & -> & Hx) (y & -> & Hy). simpl. by apply float_leb_total.
Qed.

Lemma gdp_comparable_le (a b : Country.t) :
  gdp_comparable a -> gdp_comparable b ->
  null_low_le (Country.estimated_gdp a) (Country.estimated_gdp b) = true ->
  (gdp_of a <=? gdp_of b)%float = true.
Proof. intros (x & Hx & _) (y & Hy & _). unfold gdp_of. by rewrite Hx, Hy. Qed.

Lemma selected_rows_subset (region currency : option string) (d : DB)
    (c : Country.t) :
  c ∈ selected_rows region currency d -> c ∈ countries d.
Proof.
  unfold selected_rows, where_lower_eq.
  destruct region as [r|], currency as [cur|];
    repeat (destruct (str_truthy _));
    rewrite ?list_elem_of_filter; tauto.
Qed.

Lemma order_by_gdp_desc_sorted (l : list Country.t) :
  Forall gdp_comparable l ->
  StronglySorted (fun a b => (gdp_of b <=? gdp_of a)%float = true)
                 (order_by estimated_gdp_desc l).
Proof.
  intros Hl.
  eapply (StronglySorted_impl_on _ _ gdp_comparable).
  - intros a b Ha Hb H. apply (gdp_comparable_le b a Hb Ha H).
  - apply Forall_forall. intros c Hc. rewrite order_by_perm in Hc.
    by apply (proj1 (Forall_forall _ _) Hl).
  - apply (order_by_strongly_sorted_on estimated_gdp_desc gdp_comparable);
      [| |done].
    + intros a b Ha Hb. unfold estimated_gdp_desc.
      by apply gdp_comparable_total.
    + intros a b c H1 H2. unfold estimated_gdp_desc in *.
      by apply (null_low_le_trans _ _ _ H2 H1).
Qed.

Lemma order_by_gdp_asc_sorted (l : list Country.t) :
  Forall gdp_comparable l ->
  StronglySorted (fun a b => (gdp_of a <=? gdp_of b)%float = true)
                 (order_by estimated_gdp_asc l).
Proof.
  intros Hl.
  eapply (StronglySorted_impl_on _ _ gdp_comparable).
  - intros a b Ha Hb H. apply (gdp_comparable_le a b Ha Hb H).
  - apply Forall_forall. intros c Hc. rewrite order_by_perm in Hc.
    by apply (proj1 (Forall_forall _ _) Hl).
  - apply (order_by_strongly_sorted_on estimated_gdp_asc gdp_comparable);
      [| |done].
    + intros a b Ha Hb. unfold estimated_gdp_asc.
      by apply gdp_comparable_total.
    + intros a b c. unfold estimated_gdp_asc. apply null_low_le_trans.
Qed.

(** On a table whose rows all have their [estimated_gdp] filled with a
    number other than NaN, [sort=gdp_desc] lists in descending and
    [sort=gdp_asc] in ascending order of estimated GDP. *)
Theorem gdp_sort_is_sorted (region currency : option string) (w : World) :
  Forall gdp_comparable (countries (session w)) ->
  (exists rows,
     get_countries_with_filters region currency (Some "gdp_desc") w
     = (Ok rows, w) /\
     StronglySorted (fun a b => (gdp_of b <=? gdp_of a)%float = true) rows) /\
  (exists rows,
     get_countries_with_filters region currency (Some "gdp_asc") w
     = (Ok rows, w) /\
     StronglySorted (fun a b => (gdp_of a <=? gdp_of b)%float = true) rows).
Proof.
  intros Hall.
  assert (Hsel : Forall gdp_comparable
                   (selected_rows region currency (session w))).
  { apply Forall_forall. intros c Hc. apply selected_rows_subset in Hc.
    by apply (proj1 (Forall_forall _ _) Hall). }
  split; eexists; (split; [reflexivity|]);
    fold (selected_rows region currency (session w)).
  - by apply order_by_gdp_desc_sorted.
  - by apply order_by_gdp_asc_sorted.
Qed.

Lemma gdp_rows_comparable : Forall gdp_comparable (countries (session gdp_rows)).
Proof. repeat constructor; eexists; (split; [reflexivity|]); reflexivity. Qed.

Lemma gdp_sort_is_sorted_witness :
  exists rows,
    get_countries_with_filters None None (Some "gdp_desc") gdp_rows
    = (Ok rows, gdp_rows) /\
    Country.name <$> rows = ["Ghana"; "Malta"; "Kenya"; "Tuvalu"] /\
    StronglySorted (fun a b => (gdp_of b <=? gdp_of a)%float = true) rows.
Proof.
  destruct (gdp_sort_is_sorted None None gdp_rows gdp_rows_comparable)
    as [(rows & Hrun & Hsorted) _].
  exists rows. split; [exact Hrun|]. split; [|exact Hsorted].
  vm_compute in Hrun. injection Hrun as <-. reflexivity.
Defined.

(** [get_top_countries_by_gdp] on a table whose rows all have their GDP
    filled with a number other than NaN returns [min limit n] of the [n]
    rows, in descending order of GDP, and no row it leaves out has a
    larger GDP than a row it returns. *)
Theorem top_countries_dominate (limit : nat) (w : World) :
  Forall gdp_comparable (countries (session w)) ->
  exists top rest,
    get_top_countries_by_gdp limit w = (Ok top, w) /\
    top ++ rest ≡ₚ countries (session w) /\
    length top = Nat.min limit (length (countries (session w))) /\
    StronglySorted (fun a b => (gdp_of b <=? gdp_of a)%float = true) top /\
    (forall a b, a ∈ top -> b ∈ rest -> (gdp_of b <=? gdp_of a)%float = true).
Proof.
  intros Hall.
  set (sorted := order_by estimated_gdp_desc (countries (session w))).
  assert (Hperm : sorted ≡ₚ countries (session w)) by apply order_by_perm.
  pose proof (order_by_gdp_desc_sorted _ Hall) as Hs. fold sorted in Hs.
  exists (take limit sorted), (drop limit sorted).
  rewrite <- (take_drop limit sorted) in Hs.
  split; [reflexivity|]. split; [by rewrite take_drop|].
  split; [by rewrite length_take, (Permutation_length Hperm)|].
  split; [by apply StronglySorted_app_1_l in Hs|].
  intros a b Ha Hb. by apply (StronglySorted_app_1_elem_of _ _ _ a b Hs).
Qed.

Lemma top_countries_dominate_witness :
  exists top rest : list Country.t,
    get_top_countries_by_gdp 2 gdp_rows = (Ok top, gdp_rows) /\
    Country.name <$> top = ["Ghana"; "Malta"] /\
    top ++ rest ≡ₚ countries (session gdp_rows) /\
    (forall a b, a ∈ top -> b ∈ rest -> (gdp_of b <=? gdp_of a)%float = true).
Proof.
  destruct (top_countries_dominate 2 gdp_rows gdp_rows_comparable)
    as (top & rest & Hrun & Hperm & _ & _ & Hdom).
  exists top, rest. split; [exact Hrun|]. split; [|by split].
  vm_compute in Hrun. injection Hrun as <-. reflexivity.
Defined.
